(** * Verification of the buzzline Kafka-to-SQLite consumer

    A shallow embedding of [consumers/kafka_consumer_seabaugh.py]:
    the keyword classifier, the sentiment classifier, the record
    normaliser [process_message], the SQLite gateway ([init_db],
    [insert_message]), the ingestion loop
    [consume_messages_from_kafka] and the entry point [main].

    Python values coming out of [json.loads] are modelled by the inductive
    type [json]; Python floats by the IEEE-754 binary64 instance of the
    standard library's [spec_float]; Python integers by [Z]; exceptions by
    an explicit result type; the logger and the database file by an
    explicit program state threaded through a small state-and-exception
    monad. *)

From Stdlib Require Import ZArith List String Ascii Bool Lia.
From Stdlib Require Import Floats.SpecFloat.
Import ListNotations.

Local Open Scope string_scope.
Local Open Scope list_scope.
Local Open Scope Z_scope.

(* ===================================================================== *)
(** * Python values and built-ins used by the consumer                   *)
(* ===================================================================== *)

Module Py.

(** ** Floats: IEEE-754 binary64 *)

Definition prec : Z := 53.
Definition emax : Z := 1024.

Definition float := spec_float.

Definition is_nan (f : float) : bool :=
  match f with S754_nan => true | _ => false end.

Definition is_finite (f : float) : bool :=
  match f with S754_zero _ | S754_finite _ _ _ => true | _ => false end.

(** [x < y] and [x > y] on Python floats (false whenever a NaN is
    involved). *)
Definition flt (x y : float) : bool := SFltb x y.
Definition fgt (x y : float) : bool := SFltb y x.

(** Unary minus. *)
Definition fneg (x : float) : float := SFopp x.

(** The correctly rounded (round-half-to-even) binary64 value of the
    decimal [(-1)^s * n * 10^k], as produced by Python for float literals
    and by [float(str)]. *)
Definition float_of_decimal (s : bool) (n : Z) (k : Z) : float :=
  match n with
  | Zpos p =>
      if 0 <=? k
      then binary_normalize prec emax (if s then - (n * 10 ^ k) else n * 10 ^ k) 0 s
      else SFdiv prec emax (S754_finite s p 0)
                           (S754_finite false (Z.to_pos (10 ^ (- k))) 0)
  | _ => S754_zero s
  end.

(** ** Values produced by [json.loads]

    A dictionary is the list of its items; a decoded dictionary has one
    item per key, and [assoc] below takes the first one. *)

#[warnings="-register-all"] Inductive json : Type :=
| JNull
| JBool (b : bool)
| JInt (n : Z)
| JFloat (f : float)
| JStr (s : string)
| JArr (items : list json)
| JObj (fields : list (string * json)).

(** ** Exceptions and results *)

Inductive exn : Type :=
| PyException (name : string)      (* any subclass of [Exception] *)
| KeyboardInterrupt                (* BaseException, not Exception *)
| SystemExit (code : Z).           (* BaseException, not Exception *)

Definition is_Exception (e : exn) : bool :=
  match e with PyException _ => true | _ => false end.

Inductive res (A : Type) : Type :=
| Ret (a : A)
| Raise (e : exn).
Arguments Ret {A} a.
Arguments Raise {A} e.

Definition rbind {A B} (r : res A) (k : A -> res B) : res B :=
  match r with
  | Ret a => k a
  | Raise e => Raise e
  end.

(** ** Dictionaries *)

Fixpoint assoc {V} (k : string) (d : list (string * V)) : option V :=
  match d with
  | [] => None
  | (k', v) :: d' => if String.eqb k k' then Some v else assoc k d'
  end.

(** [obj.get(key, default)]: only dictionaries have a [get] method. *)
Definition get (obj : json) (key : string) (default : json) : res json :=
  match obj with
  | JObj d => Ret (match assoc key d with Some v => v | None => default end)
  | _ => Raise (PyException "AttributeError")
  end.

(** [d.get(key, default)] on a dictionary whose keys are all strings:
    the key is hashed first, which lists and dictionaries refuse; a
    hashable key that is not a string equals no string key. *)
Definition str_dict_get (d : list (string * string)) (key : json)
    (default : string) : res string :=
  match key with
  | JArr _ | JObj _ => Raise (PyException "TypeError")
  | JStr s => Ret (match assoc s d with Some v => v | None => default end)
  | _ => Ret default
  end.

(** Truth value of an object in an [if]. *)
Definition truthy (v : json) : bool :=
  match v with
  | JNull => false
  | JBool b => b
  | JInt n => negb (n =? 0)
  | JFloat f => match f with S754_zero _ => false | _ => true end
  | JStr s => negb (String.eqb s "")
  | JArr l => match l with [] => false | _ => true end
  | JObj d => match d with [] => false | _ => true end
  end.

(** ** Strings

    A Python [str] is held as its UTF-8 encoding, one [ascii] per byte: the
    form in which it reaches [json.loads].  Two strings are the same
    [str] exactly when their encodings are the same bytes.  (A [str] with
    a lone surrogate has no encoding and is left out.) *)

Definition code (c : ascii) : Z := Z.of_nat (nat_of_ascii c).

Definition chr (n : Z) : ascii := ascii_of_nat (Z.to_nat n).

(** The six bits a continuation byte carries. *)
Definition continuation (c : ascii) : option Z :=
  let n := code c in
  if (128 <=? n) && (n <=? 191) then Some (n - 128) else None.

(** The code points of a string, [None] when the bytes are not the
    encoding of a [str]: a sequence that is cut short, too long for its
    code point, a surrogate, or beyond U+10FFFF. *)
Fixpoint code_points (l : list ascii) : option (list Z) :=
  match l with
  | [] => Some []
  | b :: r =>
      let n := code b in
      if n <? 128 then option_map (cons n) (code_points r)
      else if n <? 192 then None
      else if n <? 224 then
        match r with
        | c1 :: r1 =>
            match continuation c1 with
            | Some x1 =>
                let cp := (n - 192) * 64 + x1 in
                if 128 <=? cp then option_map (cons cp) (code_points r1)
                else None
            | None => None
            end
        | _ => None
        end
      else if n <? 240 then
        match r with
        | c1 :: c2 :: r2 =>
            match continuation c1, continuation c2 with
            | Some x1, Some x2 =>
                let cp := ((n - 224) * 64 + x1) * 64 + x2 in
                if (2048 <=? cp) && negb ((55296 <=? cp) && (cp <=? 57343))
                then option_map (cons cp) (code_points r2)
                else None
            | _, _ => None
            end
        | _ => None
        end
      else if n <? 248 then
        match r with
        | c1 :: c2 :: c3 :: r3 =>
            match continuation c1, continuation c2, continuation c3 with
            | Some x1, Some x2, Some x3 =>
                let cp := (((n - 240) * 64 + x1) * 64 + x2) * 64 + x3 in
                if (65536 <=? cp) && (cp <=? 1114111)
                then option_map (cons cp) (code_points r3)
                else None
            | _, _, _ => None
            end
        | _ => None
        end
      else None
  end.

(** ** Parsing numbers out of strings

    [int(str)] and [float(str)] first rewrite the string into ASCII:
    code points below 127 are kept, every other white space becomes a
    blank, every other decimal digit becomes the ASCII digit of its
    value, and the string is cut at the first other code point, which
    becomes a question mark.  Then they strip the surrounding ASCII white
    space, accept underscores only between two digits, and read an
    optional sign followed by the number, which has to extend to the end
    of the string.  [int] refuses more than [max_str_digits] digits.
    (The tables are those of CPython 3.11, Unicode 14.) *)

(** The white space from U+007F on. *)
Definition unicode_spaces : list Z :=
  [ 133; 160; 5760; 8192; 8193; 8194; 8195; 8196; 8197; 8198; 8199; 8200;
    8201; 8202; 8232; 8233; 8239; 8287; 12288 ].

(** The digit zero of every run of ten decimal digits from U+007F on. *)
Definition unicode_zeros : list Z :=
  [ 1632; 1776; 1984; 2406; 2534; 2662; 2790; 2918; 3046; 3174; 3302; 3430;
    3558; 3664; 3792; 3872; 4160; 4240; 6112; 6160; 6470; 6608; 6784; 6800;
    6992; 7088; 7232; 7248; 42528; 43216; 43264; 43472; 43504; 43600; 44016;
    65296; 66720; 68912; 69734; 69872; 69942; 70096; 70384; 70736; 70864;
    71248; 71360; 71472; 71904; 72016; 72784; 73040; 73120; 92768; 92864;
    93008; 120782; 120792; 120802; 120812; 120822; 123200; 123632; 125264;
    130032 ].

Definition unicode_space (cp : Z) : bool :=
  existsb (Z.eqb cp) unicode_spaces.

Definition unicode_decimal (cp : Z) : option Z :=
  match find (fun z => (z <=? cp) && (cp <=? z + 9)) unicode_zeros with
  | Some z => Some (cp - z)
  | None => None
  end.

(** The ASCII form of a string, given as its code points. *)
Fixpoint to_ascii (cps : list Z) : list ascii :=
  match cps with
  | [] => []
  | cp :: r =>
      if cp <? 127 then chr cp :: to_ascii r
      else if unicode_space cp then " "%char :: to_ascii r
      else
        match unicode_decimal cp with
        | Some d => chr (48 + d) :: to_ascii r
        | None => ["?"%char]
        end
  end.

(** The characters [int] and [float] read from a string. *)
Definition numeric_text (s : string) : option (list ascii) :=
  option_map to_ascii (code_points (list_ascii_of_string s)).

Definition is_space (c : ascii) : bool :=
  let n := code c in
  ((9 <=? n) && (n <=? 13)) || (n =? 32).

Definition digit_of (c : ascii) : option Z :=
  let n := code c in
  if (48 <=? n) && (n <=? 57) then Some (n - 48) else None.

Definition is_digit (c : ascii) : bool :=
  match digit_of c with Some _ => true | None => false end.

Definition lower (c : ascii) : ascii :=
  let n := code c in
  if (65 <=? n) && (n <=? 90) then ascii_of_nat (Z.to_nat (n + 32)) else c.

Fixpoint lstrip (l : list ascii) : list ascii :=
  match l with
  | c :: l' => if is_space c then lstrip l' else l
  | [] => []
  end.

Definition strip (l : list ascii) : list ascii :=
  rev (lstrip (rev (lstrip l))).

(** Drops the underscores of a numeric string; [prev] is the previous
    character, if any.  An underscore must follow a digit and precede a
    digit. *)
Fixpoint drop_underscores (prev : option ascii) (l : list ascii)
    : option (list ascii) :=
  match l with
  | [] =>
      match prev with
      | Some "_"%char => None
      | _ => Some []
      end
  | c :: l' =>
      if Ascii.eqb c "_" then
        match prev with
        | Some p => if is_digit p then drop_underscores (Some c) l' else None
        | None => None
        end
      else
        let ok :=
          match prev with
          | Some "_"%char => is_digit c
          | _ => true
          end in
        if ok then option_map (cons c) (drop_underscores (Some c) l')
        else None
  end.

(** Reads the longest prefix of digits: the number read on top of [acc],
    how many digits were read, and the rest. *)
Fixpoint take_digits (l : list ascii) (acc cnt : Z) : Z * Z * list ascii :=
  match l with
  | c :: l' =>
      match digit_of c with
      | Some d => take_digits l' (10 * acc + d) (cnt + 1)
      | None => (acc, cnt, l)
      end
  | [] => (acc, cnt, [])
  end.

(** An optional sign: [true] for minus. *)
Definition take_sign (l : list ascii) : bool * list ascii :=
  match l with
  | "-"%char :: l' => (true, l')
  | "+"%char :: l' => (false, l')
  | _ => (false, l)
  end.

(** [digits [. digits] [(e|E) [sign] digits]] with at least one digit
    before the exponent: the integer made of the digits and the power of
    ten that scales it. *)
Definition parse_decimal (l : list ascii) : option (Z * Z) :=
  let '(i, ni, r1) := take_digits l 0 0 in
  let '(m, nf, r2) :=
    match r1 with
    | "."%char :: r => take_digits r i 0
    | _ => (i, 0, r1)
    end in
  if ni + nf =? 0 then None
  else
    match r2 with
    | [] => Some (m, - nf)
    | c :: r3 =>
        if Ascii.eqb (lower c) "e" then
          let '(se, r4) := take_sign r3 in
          let '(ex, ne, r5) := take_digits r4 0 0 in
          if ne =? 0 then None
          else
            match r5 with
            | [] => Some (m, (if se then - ex else ex) - nf)
            | _ => None
            end
        else None
    end.

(** [sys.get_int_max_str_digits()], which the consumer leaves at its
    default. *)
Definition max_str_digits : Z := 4300.

(** [int] on the ASCII form of a string, base ten. *)
Definition int_of_text (text : list ascii) : res Z :=
  match drop_underscores None (strip text) with
  | None => Raise (PyException "ValueError")
  | Some l =>
      let '(neg, l1) := take_sign l in
      match take_digits l1 0 0 with
      | (n, cnt, []) =>
          if (cnt =? 0) || (max_str_digits <? cnt)
          then Raise (PyException "ValueError")
          else Ret (if neg then - n else n)
      | _ => Raise (PyException "ValueError")
      end
  end.

(** [float] on the ASCII form of a string. *)
Definition float_of_text (text : list ascii) : res float :=
  match drop_underscores None (strip text) with
  | None => Raise (PyException "ValueError")
  | Some l =>
      let '(neg, l1) := take_sign l in
      let word := string_of_list_ascii (map lower l1) in
      if String.eqb word "inf" || String.eqb word "infinity"
      then Ret (S754_infinity neg)
      else if String.eqb word "nan" then Ret S754_nan
      else
        match parse_decimal l1 with
        | Some (m, k) => Ret (float_of_decimal neg m k)
        | None => Raise (PyException "ValueError")
        end
  end.

(** [int(s)] for a string [s], base ten. *)
Definition int_of_str (s : string) : res Z :=
  match numeric_text s with
  | Some text => int_of_text text
  | None => Raise (PyException "ValueError")
  end.

(** [float(s)] for a string [s]. *)
Definition float_of_str (s : string) : res float :=
  match numeric_text s with
  | Some text => float_of_text text
  | None => Raise (PyException "ValueError")
  end.

(** ** The built-ins [float(x)] and [int(x)] on decoded JSON values *)

Definition float_of (v : json) : res float :=
  match v with
  | JNull | JArr _ | JObj _ => Raise (PyException "TypeError")
  | JBool b => Ret (if b then float_of_decimal false 1 0 else S754_zero false)
  | JInt n =>
      let f := binary_normalize prec emax n 0 false in
      if is_finite f then Ret f else Raise (PyException "OverflowError")
  | JFloat f => Ret f
  | JStr s => float_of_str s
  end.

(** Truncation toward zero of a float. *)
Definition trunc (f : float) : res Z :=
  match f with
  | S754_zero _ => Ret 0
  | S754_nan => Raise (PyException "ValueError")
  | S754_infinity _ => Raise (PyException "OverflowError")
  | S754_finite s m e =>
      let a := if 0 <=? e then Zpos m * 2 ^ e else Zpos m / 2 ^ (- e) in
      Ret (if s then - a else a)
  end.

Definition int_of (v : json) : res Z :=
  match v with
  | JNull | JArr _ | JObj _ => Raise (PyException "TypeError")
  | JBool b => Ret (if b then 1 else 0)
  | JInt n => Ret n
  | JFloat f => trunc f
  | JStr s => int_of_str s
  end.

End Py.

Import Py.

(* ===================================================================== *)
(** * The SQLite store                                                   *)
(* ===================================================================== *)

Module Sqlite.

(** What a column of a stored row holds. *)
Inductive value : Type :=
| Null
| Integer (n : Z)
| Real (f : float)
| Text (s : string).

(** A row of [messages]: the generated [id] and the eight bound
    columns, in the order of the [INSERT] statement.  (The conversions of
    SQLite's column affinities are not applied: the row holds the values
    as they were bound.) *)
Definition row : Type := Z * list value.

(** The content of a database file: the rows of the [messages] table,
    oldest first, or [None] when the table does not exist. *)
Definition database : Type := option (list row).

(** The state of the path the consumer is configured with. *)
Inductive path_state : Type :=
| NoDirectory                                   (* nothing can be opened there *)
| Absent                                        (* no file yet *)
| Exists (removable : bool) (db : database).    (* a database file *)

(** [sqlite_path.exists()] *)
Definition exists_ (p : path_state) : bool :=
  match p with Exists _ _ => true | _ => false end.

(** [sqlite_path.unlink()] *)
Definition unlink (p : path_state) : res path_state :=
  match p with
  | Exists true _ => Ret Absent
  | Exists false _ => Raise (PyException "PermissionError")
  | _ => Raise (PyException "FileNotFoundError")
  end.

(** [sqlite3.connect(path)]: opens the file, creating an empty database
    when there is none.  The connection sees whether the file can be
    removed and the database it holds. *)
Definition connect (p : path_state) : res (bool * database) :=
  match p with
  | NoDirectory => Raise (PyException "sqlite3.OperationalError")
  | Absent => Ret (true, None)
  | Exists r db => Ret (r, db)
  end.

(** [CREATE TABLE IF NOT EXISTS messages (...)] *)
Definition create_table_if_not_exists (db : database) : database :=
  match db with
  | None => Some []
  | Some rows => Some rows
  end.

(** Binding one Python object to a [?] placeholder. *)
Definition bind (v : json) : res value :=
  match v with
  | JNull => Ret Null
  | JBool b => Ret (Integer (if b then 1 else 0))
  | JInt n =>
      if (- 2 ^ 63 <=? n) && (n <? 2 ^ 63) then Ret (Integer n)
      else Raise (PyException "OverflowError")
  | JFloat f => Ret (if is_nan f then Null else Real f)
  | JStr s => Ret (Text s)
  | JArr _ | JObj _ => Raise (PyException "sqlite3.ProgrammingError")
  end.

Fixpoint bind_all (params : list json) : res (list value) :=
  match params with
  | [] => Ret []
  | v :: rest =>
      rbind (bind v) (fun x => rbind (bind_all rest) (fun xs => Ret (x :: xs)))
  end.

(** [INSERT INTO messages (...) VALUES (?, ..., ?)] with [params]: the
    table has to exist, every parameter has to bind, and the new row gets
    the next [id].  [AUTOINCREMENT] generates one more than the largest
    id the table has ever held; the state keeps no such counter, and the
    id given here, the number of rows plus one, is the generated id for a
    table that has only been appended to since it was created, as the
    table of a run of [main] is. *)
Definition insert_into_messages (db : database) (params : list json)
    : res database :=
  match db with
  | None => Raise (PyException "sqlite3.OperationalError")
  | Some rows =>
      rbind (bind_all params) (fun vals =>
        Ret (Some (rows ++ [(Z.of_nat (List.length rows) + 1, vals)])))
  end.

End Sqlite.

(* ===================================================================== *)
(** * Program state and the monad of effects                             *)
(* ===================================================================== *)

Inductive level : Type := INFO | WARNING | ERROR.

(** The program state: what the logger has emitted so far (oldest first)
    and the state of the database path. *)
Record state : Type := mkState {
  log : list (level * string);
  store : Sqlite.path_state;
}.

(** A computation reads and updates the state and either returns a value
    or raises an exception. *)
Definition M (A : Type) : Type := state -> res A * state.

Definition ret {A} (a : A) : M A := fun st => (Ret a, st).

Definition raise {A} (e : exn) : M A := fun st => (Raise e, st).

Definition bind {A B} (m : M A) (k : A -> M B) : M B :=
  fun st =>
    match m st with
    | (Ret a, st') => k a st'
    | (Raise e, st') => (Raise e, st')
    end.

Definition lift {A} (r : res A) : M A := fun st => (r, st).

Declare Scope py_scope.
Delimit Scope py_scope with py.
Notation "x <- m ;; k" := (bind m (fun x => k))
  (at level 61, m at next level, right associativity) : py_scope.
Notation "m ;; k" := (bind m (fun _ => k))
  (at level 61, right associativity) : py_scope.
Local Open Scope py_scope.

(** [try: body / except C1 as e: h1 / except C2 as e: h2 ...]: the first
    clause whose class matches handles the exception; what a handler
    raises is not handled by its siblings. *)
Fixpoint select_handler {A} (clauses : list ((exn -> bool) * (exn -> M A)))
    (e : exn) : option (M A) :=
  match clauses with
  | [] => None
  | (matches, h) :: rest =>
      if matches e then Some (h e) else select_handler rest e
  end.

Definition try_except {A} (body : M A)
    (clauses : list ((exn -> bool) * (exn -> M A))) : M A :=
  fun st =>
    match body st with
    | (Ret a, st') => (Ret a, st')
    | (Raise e, st') =>
        match select_handler clauses e with
        | Some h => h st'
        | None => (Raise e, st')
        end
    end.

(** [try: body / finally: fin] *)
Definition try_finally {A} (body : M A) (fin : M unit) : M A :=
  fun st =>
    match body st with
    | (r, st') =>
        match fin st' with
        | (Ret _, st'') => (r, st'')
        | (Raise e, st'') => (Raise e, st'')
        end
    end.

Definition Exception_ : exn -> bool := is_Exception.

Definition KeyboardInterrupt_ (e : exn) : bool :=
  match e with KeyboardInterrupt => true | _ => false end.

(** [sys.exit(code)] *)
Definition sys_exit {A} (code : Z) : M A := raise (SystemExit code).

(** The logger.  Messages are recorded by their fixed text; the values
    interpolated into them are left out, and rendering them is taken to
    succeed, as it does short of the interpreter's limits on the digits
    of an integer and on the depth of nesting. *)
Definition emit (l : level) (msg : string) : M unit :=
  fun st => (Ret tt, mkState (log st ++ [(l, msg)]) (store st)).

Definition logger_info := emit INFO.
Definition logger_warning := emit WARNING.
Definition logger_error := emit ERROR.

Definition get_store : M Sqlite.path_state := fun st => (Ret (store st), st).

Definition set_store (p : Sqlite.path_state) : M unit :=
  fun st => (Ret tt, mkState (log st) p).

(* ===================================================================== *)
(** * The consumer: [consumers/kafka_consumer_seabaugh.py]               *)
(* ===================================================================== *)

(** ** External collaborators

    The configuration module, the Kafka helpers and the broker are not
    part of the consumer; each call is represented by its outcome. *)

Record config : Type := mkConfig {
  kafka_topic : string;
  kafka_broker_address : string;
  kafka_consumer_group_id : string;
  message_interval_seconds : Z;
}.

(** What iterating over the Kafka consumer yields next: a record whose
    [value] has been decoded from JSON, or an exception raised by the
    pull itself (a broker or decoding error, or the user's interrupt). *)
Inductive event : Type :=
| Message (value : json)
| Failure (e : exn).

(** A consumer is the sequence of events its iteration produces; the
    iteration ends when the sequence does. *)
Definition KafkaConsumer : Type := list event.

Record collaborators : Type := mkCollaborators {
  (* the getters of [utils.utils_config], called in a row *)
  read_config : res config;
  (* [utils.utils_producer.verify_services()] *)
  verify_services : res unit;
  (* [utils.utils_consumer.create_kafka_consumer(topic, group, ...)] *)
  create_kafka_consumer : string -> string -> res (option KafkaConsumer);
  (* [utils.utils_producer.is_topic_available(topic)] *)
  is_topic_available : string -> res bool;
}.

(** ** Keyword to category mapping *)

Definition KEYWORD_CATEGORIES : list (string * string) :=
  [ ("meme", "humor");
    ("Python", "tech");
    ("JavaScript", "tech");
    ("recipe", "food");
    ("travel", "travel");
    ("movie", "entertainment");
    ("game", "gaming") ].

(** ** Function to categorize sentiment *)

(** The literal [0.1]. *)
Definition lit_0_1 : float := float_of_decimal false 1 (-1).

(** The literal [0.0]. *)
Definition lit_0_0 : float := S754_zero false.

Definition categorize_sentiment (sentiment_score : float) : string :=
  if fgt sentiment_score lit_0_1 then "positive"
  else if flt sentiment_score (fneg lit_0_1) then "negative"
  else "neutral".

(** ** Function to process a single message *)

(** The dictionary [process_message] builds, one field per key. *)
Record processed : Type := mkProcessed {
  message : json;
  author : json;
  timestamp : json;
  category : string;
  sentiment : float;
  sentiment_category : string;
  keyword_mentioned : json;
  message_length : Z;
}.

Definition process_message (msg : json) : M (option processed) :=
  logger_info "Called process_message() with:" ;;
  logger_info "   message=" ;;
  try_except
    (kw <- lift (get msg "keyword_mentioned" JNull) ;;
     cat <- lift (str_dict_get KEYWORD_CATEGORIES kw "unknown") ;;
     raw_sentiment <- lift (get msg "sentiment" (JFloat lit_0_0)) ;;
     sentiment_score <- lift (float_of raw_sentiment) ;;
     let sentiment_cat := categorize_sentiment sentiment_score in
     (* Log alerts based on keyword and category detection *)
     (if truthy kw then
        if negb (String.eqb cat "unknown")
        then logger_info "Alert: Detected category for keyword"
        else logger_warning "Keyword not found in categories"
      else logger_warning "No keyword mentioned in message") ;;
     m <- lift (get msg "message" JNull) ;;
     a <- lift (get msg "author" JNull) ;;
     t <- lift (get msg "timestamp" JNull) ;;
     raw_length <- lift (get msg "message_length" (JInt 0)) ;;
     len <- lift (int_of raw_length) ;;
     let processed_message :=
       {| message := m;
          author := a;
          timestamp := t;
          category := cat;
          sentiment := sentiment_score;
          sentiment_category := sentiment_cat;
          keyword_mentioned := kw;
          message_length := len |} in
     logger_info "Processed message:" ;;
     ret (Some processed_message))
    [ (Exception_, fun e =>
         logger_error "Error processing message:" ;;
         ret None) ].

(** ** Initialize SQLite database *)

Definition init_db : M unit :=
  p <- get_store ;;
  conn <- lift (Sqlite.connect p) ;;
  let '(r, db) := conn in
  set_store (Sqlite.Exists r db) ;;
  let db' := Sqlite.create_table_if_not_exists db in
  (* commit, close *)
  set_store (Sqlite.Exists r db').

(** ** Insert processed message into SQLite *)

Definition insert_message (pm : processed) : M unit :=
  p <- get_store ;;
  conn <- lift (Sqlite.connect p) ;;
  let '(r, db) := conn in
  set_store (Sqlite.Exists r db) ;;
  db' <- lift (Sqlite.insert_into_messages db
                 [ message pm;
                   author pm;
                   timestamp pm;
                   JStr (category pm);
                   JFloat (sentiment pm);
                   JStr (sentiment_category pm);
                   keyword_mentioned pm;
                   JInt (message_length pm) ]) ;;
  (* commit, close *)
  set_store (Sqlite.Exists r db').

(** ** Consume messages from Kafka topic *)

(** [for message in consumer: body(message.value)] *)
Fixpoint for_each (consumer : KafkaConsumer) (body : json -> M unit) : M unit :=
  match consumer with
  | [] => ret tt
  | Failure e :: _ => raise e
  | Message value :: rest => body value ;; for_each rest body
  end.

(** The body of the loop of step 4, and the loop inside its [try]. *)
Definition process_and_insert (value : json) : M unit :=
  processed_message <- process_message value ;;
  match processed_message with
  | Some pm => insert_message pm
  | None => ret tt
  end.

Definition consume_loop (consumer : KafkaConsumer) : M unit :=
  try_except
    (for_each consumer process_and_insert)
    [ (Exception_, fun e =>
         logger_error "ERROR: Could not consume messages from Kafka:" ;;
         raise e) ].

Definition consume_messages_from_kafka (ext : collaborators)
    (topic kafka_url group : string) (interval_secs : Z) : M unit :=
  logger_info "Called consume_messages_from_kafka() with:" ;;
  logger_info "   topic=" ;;
  logger_info "   kafka_url=" ;;
  logger_info "   group=" ;;
  logger_info "   sql_path=" ;;
  logger_info "   interval_secs=" ;;
  logger_info "Step 1. Verify Kafka Services." ;;
  try_except
    (lift (verify_services ext))
    [ (Exception_, fun e =>
         logger_error "ERROR: Kafka services verification failed:" ;;
         sys_exit 11) ] ;;
  logger_info "Step 2. Create a Kafka consumer." ;;
  consumer <-
    try_except
      (lift (create_kafka_consumer ext topic group))
      [ (Exception_, fun e =>
           logger_error "ERROR: Could not create Kafka consumer:" ;;
           sys_exit 11) ] ;;
  logger_info "Step 3. Verify topic exists." ;;
  match consumer with
  | Some _ =>
      try_except
        (_ <- lift (is_topic_available ext topic) ;;
         logger_info "Kafka topic is ready.")
        [ (Exception_, fun e =>
             logger_error
               "ERROR: Topic does not exist. Please run the Kafka producer." ;;
             sys_exit 13) ]
  | None => ret tt
  end ;;
  logger_info "Step 4. Process messages." ;;
  match consumer with
  | None =>
      logger_error "ERROR: Consumer is None. Exiting." ;;
      sys_exit 13
  | Some records => consume_loop records
  end.

(** ** Main function *)

(** Step 2 of [main]: delete any prior database file. *)
Definition delete_prior_database : M unit :=
  logger_info "STEP 2. Delete any prior database file for a fresh start." ;;
  p <- get_store ;;
  if Sqlite.exists_ p then
    try_except
      (p' <- lift (Sqlite.unlink p) ;;
       set_store p' ;;
       logger_info "SUCCESS: Deleted database file.")
      [ (Exception_, fun e =>
           logger_error "ERROR: Failed to delete DB file:" ;;
           sys_exit 2) ]
  else ret tt.

(** Step 3 of [main]: initialize a new database. *)
Definition initialize_database : M unit :=
  logger_info "STEP 3. Initialize a new database with an empty table." ;;
  try_except
    init_db
    [ (Exception_, fun e =>
         logger_error "ERROR: Failed to create db table:" ;;
         sys_exit 3) ].

(** Steps 2 and 3 together: the store is recreated at process start. *)
Definition fresh_start : M unit :=
  delete_prior_database ;;
  initialize_database.

Definition main (ext : collaborators) : M unit :=
  logger_info "Starting Consumer to run continuously." ;;
  logger_info "Moved .env variables into a utils config module." ;;
  logger_info "STEP 1. Read environment variables using new config functions." ;;
  cfg <-
    try_except
      (c <- lift (read_config ext) ;;
       logger_info "SUCCESS: Read environment variables." ;;
       ret c)
      [ (Exception_, fun e =>
           logger_error "ERROR: Failed to read environment variables:" ;;
           sys_exit 1) ] ;;
  fresh_start ;;
  logger_info "STEP 4. Begin consuming and storing messages." ;;
  try_finally
    (try_except
       (consume_messages_from_kafka ext (kafka_topic cfg)
          (kafka_broker_address cfg) (kafka_consumer_group_id cfg)
          (message_interval_seconds cfg))
       [ (KeyboardInterrupt_, fun e =>
            logger_warning "Consumer interrupted by user.");
         (Exception_, fun e =>
            logger_error "Unexpected error:") ])
    (logger_info "Consumer shutting down.").

(** ** Conditional execution

    [if __name__ == "__main__": main()]: the exit status of the
    interpreter once [main] has returned or raised. *)
Definition exit_status (r : res unit) : Z :=
  match r with
  | Ret _ => 0
  | Raise (SystemExit code) => code
  | Raise KeyboardInterrupt => 130
  | Raise (PyException _) => 1
  end.

Definition initial (p : Sqlite.path_state) : state := mkState [] p.

Definition run (ext : collaborators) (p : Sqlite.path_state) : Z * state :=
  let '(r, st) := main ext (initial p) in (exit_status r, st).

(* ===================================================================== *)
(** * Vocabulary of the properties, and example inputs                   *)
(* ===================================================================== *)

(** A float is a binary64 number when its mantissa and exponent are in
    canonical form. *)
Definition binary64 (x : float) : bool := valid_binary prec emax x.

(** The exact value of a finite float, counted in units of [2^-1074]
    (the smallest positive binary64 number). *)
Definition units (x : float) : Z :=
  match x with
  | S754_finite s m e =>
      if s then - (Zpos m * 2 ^ (e + 1074)) else Zpos m * 2 ^ (e + 1074)
  | _ => 0
  end.

(** The score [0.5]. *)
Definition lit_0_5 : float := float_of_decimal false 5 (-1).

(** The value [msg.get(key, default)] returns when [msg] is a
    dictionary. *)
Definition field (msg : json) (key : string) (default : json) : json :=
  match msg with
  | JObj d => match assoc key d with Some v => v | None => default end
  | _ => default
  end.

(** [msg] is a dictionary; [v] can be hashed; [r] is a value rather than
    an exception. *)
Definition is_dict (msg : json) : bool :=
  match msg with JObj _ => true | _ => false end.

Definition hashable (v : json) : bool :=
  match v with JArr _ | JObj _ => false | _ => true end.

Definition succeeds {A} (r : res A) : bool :=
  match r with Ret _ => true | Raise _ => false end.

(** The three raw fields [process_message] looks at. *)
Definition raw_keyword (msg : json) : json :=
  field msg "keyword_mentioned" JNull.

Definition raw_sentiment (msg : json) : json :=
  field msg "sentiment" (JFloat lit_0_0).

Definition raw_length (msg : json) : json :=
  field msg "message_length" (JInt 0).

(** What [process_message] returns, as a function of the record alone. *)
Definition normalized (msg : json) : option processed :=
  match msg with
  | JObj _ =>
      match str_dict_get KEYWORD_CATEGORIES (raw_keyword msg) "unknown",
            float_of (raw_sentiment msg),
            int_of (raw_length msg) with
      | Ret cat, Ret s, Ret n =>
          Some {| message := field msg "message" JNull;
                  author := field msg "author" JNull;
                  timestamp := field msg "timestamp" JNull;
                  category := cat;
                  sentiment := s;
                  sentiment_category := categorize_sentiment s;
                  keyword_mentioned := raw_keyword msg;
                  message_length := n |}
      | _, _, _ => None
      end
  | _ => None
  end.

(** Two states that differ at most in their logs. *)
Definition same_store (st1 st2 : state) : Prop := store st1 = store st2.

(** Two outcomes that agree on the result and on the store. *)
Definition same_outcome {A} (o1 o2 : res A * state) : Prop :=
  fst o1 = fst o2 /\ same_store (snd o1) (snd o2).

(** A state with more log entries. *)
Definition logged (st : state) (entries : list (level * string)) : state :=
  mkState (log st ++ entries) (store st).

(** The store can be recreated: there is no file, or one that can be
    removed. *)
Definition startable (p : Sqlite.path_state) : Prop :=
  p = Sqlite.Absent \/ exists db, p = Sqlite.Exists true db.

(** A database file whose [messages] table has no row. *)
Definition empty_store : Sqlite.path_state := Sqlite.Exists true (Some []).

(** What [consume_messages_from_kafka] and [main] log first. *)
Definition consume_banner : list (level * string) :=
  [ (INFO, "Called consume_messages_from_kafka() with:");
    (INFO, "   topic=");
    (INFO, "   kafka_url=");
    (INFO, "   group=");
    (INFO, "   sql_path=");
    (INFO, "   interval_secs=");
    (INFO, "Step 1. Verify Kafka Services.") ].

Definition main_banner : list (level * string) :=
  [ (INFO, "Starting Consumer to run continuously.");
    (INFO, "Moved .env variables into a utils config module.");
    (INFO, "STEP 1. Read environment variables using new config functions.") ].

(** What step 4 of [main] makes of the outcome of
    [consume_messages_from_kafka]. *)
Definition shutdown (o : res unit * state) : res unit * state :=
  let '(r, st) := o in
  match r with
  | Ret _ => (Ret tt, logged st [(INFO, "Consumer shutting down.")])
  | Raise KeyboardInterrupt =>
      (Ret tt, logged st [(WARNING, "Consumer interrupted by user.");
                          (INFO, "Consumer shutting down.")])
  | Raise (PyException _) =>
      (Ret tt, logged st [(ERROR, "Unexpected error:");
                          (INFO, "Consumer shutting down.")])
  | Raise (SystemExit code) =>
      (Raise (SystemExit code), logged st [(INFO, "Consumer shutting down.")])
  end.

(** A keyword is known when it is a string and a key of the mapping. *)
Definition known_keyword (kw : json) : Prop :=
  exists k v, kw = JStr k /\ assoc k KEYWORD_CATEGORIES = Some v.

(** The keyword is matched exactly: "Python" is a key, "python" is
    not. *)
Definition keyword_Python : json := JObj [("keyword_mentioned", JStr "Python")].

Definition keyword_python : json := JObj [("keyword_mentioned", JStr "python")].

(** A record whose [keyword_mentioned] is a list. *)
Definition keyword_is_a_list : json :=
  JObj [("keyword_mentioned", JArr [JStr "meme"])].

(** A record whose [sentiment] is null, and a record without
    [sentiment]. *)
Definition sentiment_is_null : list (string * json) :=
  [("message", JStr "hi"); ("sentiment", JNull)].

Definition sentiment_is_absent : list (string * json) :=
  [("message", JStr "hi")].

(** [n] is the float [f] truncated toward zero: it has the sign of [f]
    and its magnitude is the integer part of the magnitude of [f]. *)
Definition truncates (f : float) (n : Z) : Prop :=
  match f with
  | S754_zero _ => n = 0
  | S754_finite s m e =>
      (if s then n <= 0 else 0 <= n) /\
      Z.abs n * 2 ^ Z.max 0 (- e) <= Zpos m * 2 ^ Z.max 0 e
        < (Z.abs n + 1) * 2 ^ Z.max 0 (- e)
  | _ => False
  end.

(** The number [15.7] and the two records of the example. *)
Definition lit_15_7 : float := float_of_decimal false 157 (-1).

Definition length_is_15_7 : list (string * json) :=
  [("message", JStr "check this meme"); ("message_length", JFloat lit_15_7)].

Definition length_is_text_15_7 : list (string * json) :=
  [("message", JStr "check this meme"); ("message_length", JStr "15.7")].

(** The string with the given bytes, and a string of [n] digits 1. *)
Definition utf8 (bytes : list Z) : string :=
  string_of_list_ascii (map chr bytes).

Definition ones (n : nat) : string :=
  string_of_list_ascii (repeat "1"%char n).

(** A record whose [message_length] is [15.7] and whose [sentiment] is
    null. *)
Definition length_is_15_7_sentiment_is_null : list (string * json) :=
  [("message", JStr "check this meme"); ("sentiment", JNull);
   ("message_length", JFloat lit_15_7)].

(** The bootstrap succeeds and hands [records] to the loop: the store can
    be recreated, the configuration is read, the broker answers, the
    consumer is constructed over [records] and the topic check returns. *)
Definition bootstrapped (ext : collaborators) (p : Sqlite.path_state)
    (records : KafkaConsumer) : Prop :=
  startable p /\
  exists cfg,
    read_config ext = Ret cfg /\
    verify_services ext = Ret tt /\
    create_kafka_consumer ext (kafka_topic cfg) (kafka_consumer_group_id cfg)
      = Ret (Some records) /\
    exists b, is_topic_available ext (kafka_topic cfg) = Ret b.

(** [process_message] returns no result on [v]. *)
Definition rejected (v : json) : Prop :=
  exists st0, fst (process_message v st0) = Ret None.

(** A configuration, and the two records of the end-to-end examples. *)
Definition example_config : config :=
  mkConfig "buzzline" "localhost:9092" "buzz_group" 5.

(** Collaborators that all succeed and deliver [records]. *)
Definition delivering (records : KafkaConsumer) : collaborators :=
  mkCollaborators (Ret example_config) (Ret tt)
    (fun _ _ => Ret (Some records)) (fun _ => Ret true).

Definition meme_record : json :=
  JObj [("message", JStr "check this meme"); ("author", JStr "alice");
        ("timestamp", JStr "2024-01-01T00:00:00");
        ("keyword_mentioned", JStr "meme");
        ("sentiment", JFloat lit_0_5); ("message_length", JInt 15)].

Definition greeting_record : json :=
  JObj [("message", JStr "hi"); ("author", JStr "bob");
        ("timestamp", JStr "t");
        ("sentiment", JFloat (fneg lit_0_5)); ("message_length", JInt 2)].

(** A record whose [sentiment] is not a number. *)
Definition abc_record : json :=
  JObj [("message", JStr "hi"); ("sentiment", JStr "abc")].

(** A record that normalises but whose [message] is a list, which SQLite
    cannot bind. *)
Definition list_record : json :=
  JObj [("message", JArr [JStr "hi"])].

(** The broker cannot be reached; the consumer cannot be constructed. *)
Definition broker_unreachable : collaborators :=
  mkCollaborators (Ret example_config)
    (Raise (PyException "NoBrokersAvailable"))
    (fun _ _ => Ret (Some [])) (fun _ => Ret true).

Definition consumer_construction_fails : collaborators :=
  mkCollaborators (Ret example_config) (Ret tt)
    (fun _ _ => Raise (PyException "KafkaConfigurationError"))
    (fun _ => Ret true).

(** The store left by a run that has stored one record. *)
Definition store_with_one_row : Sqlite.path_state :=
  Sqlite.Exists true
    (Some [(1, [Sqlite.Text "hi"; Sqlite.Text "bob"; Sqlite.Text "t";
                Sqlite.Text "unknown"; Sqlite.Real (fneg lit_0_5);
                Sqlite.Text "negative"; Sqlite.Null; Sqlite.Integer 2])]).

(* ===================================================================== *)
(** * Vocabulary of the further properties                               *)
(* ===================================================================== *)

(** The rows of the [messages] table of the file at a path, when there is
    a file and it has the table. *)
Definition rows_of (p : Sqlite.path_state) : option (list Sqlite.row) :=
  match p with
  | Sqlite.Exists _ db => db
  | _ => None
  end.

(** The parameters [insert_message] binds, in the order of the columns. *)
Definition columns (pm : processed) : list json :=
  [ message pm; author pm; timestamp pm; JStr (category pm);
    JFloat (sentiment pm); JStr (sentiment_category pm);
    keyword_mentioned pm; JInt (message_length pm) ].

(** The row that follows [rows] and holds [vals]. *)
Definition next_row (rows : list Sqlite.row) (vals : list Sqlite.value)
    : Sqlite.row :=
  (Z.of_nat (List.length rows) + 1, vals).

(** The ids of a table are 1, 2, 3, ... in the order of insertion. *)
Definition numbered (rows : list Sqlite.row) : Prop :=
  forall (i : nat) (r : Sqlite.row),
    nth_error rows i = Some r -> fst r = Z.of_nat i + 1.

(** [process_message] makes a record of [v] (its result does not depend
    on the state it is called in). *)
Definition accepted (v : json) : bool :=
  match fst (process_message v (initial Sqlite.Absent)) with
  | Ret (Some _) => true
  | _ => false
  end.

(** The order of the three sentiment labels, and the label of the
    opposite score. *)
Definition polarity (label : string) : Z :=
  if String.eqb label "positive" then 1
  else if String.eqb label "negative" then -1
  else 0.

Definition opposite (label : string) : string :=
  if String.eqb label "positive" then "negative"
  else if String.eqb label "negative" then "positive"
  else label.

(** Collaborators that fail only by raising an [Exception], over streams
    that fail only by an [Exception] or by the user's interrupt. *)
Definition raises_Exception {A} (r : res A) : Prop :=
  forall e, r = Raise e -> is_Exception e = true.

Definition ordinary_event (ev : event) : Prop :=
  match ev with
  | Message _ => True
  | Failure e => is_Exception e = true \/ e = KeyboardInterrupt
  end.

Definition ordinary (ext : collaborators) : Prop :=
  raises_Exception (read_config ext) /\
  raises_Exception (verify_services ext) /\
  (forall t g, raises_Exception (create_kafka_consumer ext t g)) /\
  (forall t, raises_Exception (is_topic_available ext t)) /\
  (forall t g records,
     create_kafka_consumer ext t g = Ret (Some records) ->
     Forall ordinary_event records).

(** The keyword diagnostic [process_message] logs for a keyword. *)
Definition is_key (kw : json) : bool :=
  match kw with
  | JStr k => match assoc k KEYWORD_CATEGORIES with Some _ => true | None => false end
  | _ => false
  end.

Definition keyword_diagnostic (kw : json) : level * string :=
  if truthy kw then
    if is_key kw then (INFO, "Alert: Detected category for keyword")
    else (WARNING, "Keyword not found in categories")
  else (WARNING, "No keyword mentioned in message").

(** The record [process_message] makes of the greeting. *)
Definition greeting_processed : processed :=
  {| message := JStr "hi"; author := JStr "bob"; timestamp := JStr "t";
     category := "unknown"; sentiment := fneg lit_0_5;
     sentiment_category := "negative"; keyword_mentioned := JNull;
     message_length := 2 |}.

(** Collaborators without a consumer; collaborators whose topic check
    answers [b]. *)
Definition no_consumer : collaborators :=
  mkCollaborators (Ret example_config) (Ret tt)
    (fun _ _ => Ret None) (fun _ => Raise (PyException "KafkaError")).

Definition topic_check_answers (b : bool) (records : KafkaConsumer)
    : collaborators :=
  mkCollaborators (Ret example_config) (Ret tt)
    (fun _ _ => Ret (Some records)) (fun _ => Ret b).

(** The configuration cannot be read. *)
Definition config_unreadable : collaborators :=
  mkCollaborators (Raise (PyException "KeyError")) (Ret tt)
    (fun _ _ => Ret (Some [])) (fun _ => Ret true).

(* ===================================================================== *)
(** * Floats: the comparison is the numeric order                        *)
(* ===================================================================== *)

Section FloatOrder.

Lemma digits2_pos_bounds (m : positive) :
  2 ^ (Zpos (digits2_pos m) - 1) <= Zpos m < 2 ^ Zpos (digits2_pos m).
Proof.
  induction m as [p IH | p IH | ]; cbn [digits2_pos].
  - rewrite Pos2Z.inj_succ.
    replace (Z.succ (Zpos (digits2_pos p)) - 1) with
      (Z.succ (Zpos (digits2_pos p) - 1)) by lia.
    rewrite !Z.pow_succ_r by lia. lia.
  - rewrite Pos2Z.inj_succ.
    replace (Z.succ (Zpos (digits2_pos p)) - 1) with
      (Z.succ (Zpos (digits2_pos p) - 1)) by lia.
    rewrite !Z.pow_succ_r by lia. lia.
  - cbn. lia.
Qed.

Lemma bounded_inv (m : positive) (e : Z) :
  bounded prec emax m e = true ->
  - 1074 <= e /\ Zpos m < 2 ^ 53 /\ (e = - 1074 \/ 2 ^ 52 <= Zpos m).
Proof.
  unfold bounded, canonical_mantissa, fexp, emin, prec, emax.
  intros H. apply andb_prop in H. destruct H as [H _].
  apply Z.eqb_eq in H.
  pose proof (digits2_pos_bounds m) as [Hlo Hhi].
  set (d := Zpos (digits2_pos m)) in *.
  assert (Hd : d <= 53) by lia.
  assert (He : - 1074 <= e) by lia.
  assert (Hm : Zpos m < 2 ^ 53).
  { apply Z.lt_le_trans with (1 := Hhi).
    apply Z.pow_le_mono_r; lia. }
  assert (Hc : e = - 1074 \/ 2 ^ 52 <= Zpos m).
  { destruct (Z.eq_dec e (- 1074)) as [-> | Hne]; [now left | right].
    assert (d = 53) as Hd53 by lia.
    rewrite Hd53 in Hlo. exact Hlo. }
  repeat split; assumption.
Qed.

(** Between canonical floats a smaller exponent means a smaller
    magnitude. *)
Lemma magnitude_lt (m1 m2 : positive) (e1 e2 : Z) :
  bounded prec emax m1 e1 = true ->
  bounded prec emax m2 e2 = true ->
  e1 < e2 ->
  Zpos m1 * 2 ^ (e1 + 1074) < Zpos m2 * 2 ^ (e2 + 1074).
Proof.
  intros H1 H2 Hlt.
  destruct (bounded_inv _ _ H1) as (He1 & Hm1 & _).
  destruct (bounded_inv _ _ H2) as (He2 & _ & Hc2).
  destruct Hc2 as [-> | Hm2]; [lia |].
  assert (HP : 0 < 2 ^ (e1 + 1074)) by (apply Z.pow_pos_nonneg; lia).
  assert (HQ : 2 * 2 ^ (e1 + 1074) <= 2 ^ (e2 + 1074)).
  { rewrite <- Z.pow_succ_r by lia. apply Z.pow_le_mono_r; lia. }
  change (2 ^ 53) with (2 * 2 ^ 52) in Hm1.
  set (P := 2 ^ (e1 + 1074)) in *. set (Q := 2 ^ (e2 + 1074)) in *.
  set (k := 2 ^ 52) in *.
  assert (0 < k) by (subst k; lia).
  nia.
Qed.

Lemma magnitude_compare (m1 m2 : positive) (e1 e2 : Z) :
  bounded prec emax m1 e1 = true ->
  bounded prec emax m2 e2 = true ->
  match e1 ?= e2 with
  | Lt => Lt
  | Gt => Gt
  | Eq => Pos.compare_cont Eq m1 m2
  end = (Zpos m1 * 2 ^ (e1 + 1074) ?= Zpos m2 * 2 ^ (e2 + 1074)).
Proof.
  intros H1 H2. symmetry.
  destruct (Z.compare_spec e1 e2) as [-> | Hlt | Hgt].
  - destruct (bounded_inv _ _ H2) as (He2 & _).
    assert (0 < 2 ^ (e2 + 1074)) by (apply Z.pow_pos_nonneg; lia).
    change (Pos.compare_cont Eq m1 m2) with (Zpos m1 ?= Zpos m2).
    destruct (Z.compare_spec (Zpos m1) (Zpos m2)) as [E | L | G].
    + rewrite E. apply Z.compare_refl.
    + apply Z.compare_lt_iff. nia.
    + apply Z.compare_gt_iff. nia.
  - apply Z.compare_lt_iff. now apply magnitude_lt.
  - apply Z.compare_gt_iff. now apply magnitude_lt.
Qed.

(** On finite binary64 numbers the comparison of floats is the
    comparison of their exact values. *)
Lemma SFcompare_units (x y : float) :
  binary64 x = true -> binary64 y = true ->
  is_finite x = true -> is_finite y = true ->
  SFcompare x y = Some (units x ?= units y).
Proof.
  intros Vx Vy Fx Fy.
  destruct x as [sx | sx | | sx mx ex]; try discriminate;
    destruct y as [sy | sy | | sy my ey]; try discriminate;
    cbn [SFcompare units binary64 valid_binary] in *.
  - reflexivity.
  - destruct (bounded_inv _ _ Vy) as (He & _).
    assert (0 < 2 ^ (ey + 1074)) by (apply Z.pow_pos_nonneg; lia).
    destruct sy; f_equal; symmetry;
      [apply Z.compare_gt_iff | apply Z.compare_lt_iff]; nia.
  - destruct (bounded_inv _ _ Vx) as (He & _).
    assert (0 < 2 ^ (ex + 1074)) by (apply Z.pow_pos_nonneg; lia).
    destruct sx; f_equal; symmetry;
      [apply Z.compare_lt_iff | apply Z.compare_gt_iff]; nia.
  - destruct (bounded_inv _ _ Vx) as (Hex & _).
    destruct (bounded_inv _ _ Vy) as (Hey & _).
    assert (0 < 2 ^ (ex + 1074)) by (apply Z.pow_pos_nonneg; lia).
    assert (0 < 2 ^ (ey + 1074)) by (apply Z.pow_pos_nonneg; lia).
    destruct sx, sy; f_equal.
    + rewrite Z.compare_opp.
      rewrite <- (magnitude_compare _ _ _ _ Vy Vx).
      rewrite (Z.compare_antisym ex ey).
      destruct (ex ?= ey); cbn [CompOpp]; try reflexivity.
      change (Pos.compare_cont Eq my mx) with (Pos.compare my mx).
      change (Pos.compare_cont Eq mx my) with (Pos.compare mx my).
      symmetry. apply Pos.compare_antisym.
    + symmetry. apply Z.compare_lt_iff. nia.
    + symmetry. apply Z.compare_gt_iff. nia.
    + apply magnitude_compare; assumption.
Qed.

Lemma flt_units (x y : float) :
  binary64 x = true -> binary64 y = true ->
  is_finite x = true -> is_finite y = true ->
  (flt x y = true <-> units x < units y).
Proof.
  intros Vx Vy Fx Fy. unfold flt, SFltb.
  rewrite (SFcompare_units x y Vx Vy Fx Fy).
  rewrite <- Z.compare_lt_iff.
  destruct (units x ?= units y); split; congruence.
Qed.

End FloatOrder.

(* ===================================================================== *)
(** * The sentiment classifier                                           *)
(* ===================================================================== *)

Lemma lit_0_1_value : lit_0_1 = S754_finite false 7205759403792794 (-56).
Proof. vm_compute. reflexivity. Qed.

Lemma lit_0_1_binary64 : binary64 lit_0_1 = true.
Proof. vm_compute. reflexivity. Qed.

Lemma neg_lit_0_1_binary64 : binary64 (fneg lit_0_1) = true.
Proof. vm_compute. reflexivity. Qed.

Lemma units_neg_lit_0_1 : units (fneg lit_0_1) = - units lit_0_1.
Proof. rewrite lit_0_1_value. reflexivity. Qed.

(** No float is both above [0.1] and below [-0.1]. *)
Lemma above_not_below (s : float) :
  fgt s lit_0_1 = true -> flt s (fneg lit_0_1) = false.
Proof.
  rewrite lit_0_1_value. unfold fgt, flt, fneg, SFltb.
  destruct s as [[] | [] | | [] m e]; cbn [SFcompare SFopp negb];
    congruence.
Qed.

(** C1: for every sentiment score [s], [categorize_sentiment] returns
    "positive" when [s > 0.1], "negative" when [s < -0.1] and "neutral"
    otherwise; the boundary values [0.1] and [-0.1] are "neutral"; the
    function is total, its result always being one of the three labels.
    The comparisons are those of Python floats, which on finite binary64
    numbers coincide with the order of their exact values. *)
Theorem categorize_sentiment_spec : forall s : float,
  (fgt s lit_0_1 = true -> categorize_sentiment s = "positive") /\
  (flt s (fneg lit_0_1) = true -> categorize_sentiment s = "negative") /\
  (fgt s lit_0_1 = false -> flt s (fneg lit_0_1) = false ->
   categorize_sentiment s = "neutral") /\
  categorize_sentiment lit_0_1 = "neutral" /\
  categorize_sentiment (fneg lit_0_1) = "neutral" /\
  (categorize_sentiment s = "positive" \/
   categorize_sentiment s = "negative" \/
   categorize_sentiment s = "neutral") /\
  (binary64 s = true -> is_finite s = true ->
   (units lit_0_1 < units s <-> categorize_sentiment s = "positive") /\
   (units s < - units lit_0_1 <-> categorize_sentiment s = "negative") /\
   (- units lit_0_1 <= units s <= units lit_0_1 <->
    categorize_sentiment s = "neutral")).
Proof.
  intros s.
  assert (Hpos : fgt s lit_0_1 = true -> categorize_sentiment s = "positive").
  { intros H. unfold categorize_sentiment. rewrite H. reflexivity. }
  assert (Hneg : flt s (fneg lit_0_1) = true ->
                 categorize_sentiment s = "negative").
  { intros H. unfold categorize_sentiment.
    destruct (fgt s lit_0_1) eqn:G.
    - apply above_not_below in G. congruence.
    - rewrite H. reflexivity. }
  assert (Hneu : fgt s lit_0_1 = false -> flt s (fneg lit_0_1) = false ->
                 categorize_sentiment s = "neutral").
  { intros H1 H2. unfold categorize_sentiment. rewrite H1, H2. reflexivity. }
  split; [exact Hpos |]. split; [exact Hneg |]. split; [exact Hneu |].
  split; [vm_compute; reflexivity |]. split; [vm_compute; reflexivity |].
  split.
  { destruct (fgt s lit_0_1) eqn:G; [left; auto |].
    destruct (flt s (fneg lit_0_1)) eqn:L; [right; left; auto |].
    right; right; auto. }
  intros V F.
  assert (Fc : is_finite lit_0_1 = true) by (rewrite lit_0_1_value; reflexivity).
  assert (Fn : is_finite (fneg lit_0_1) = true)
    by (rewrite lit_0_1_value; reflexivity).
  pose proof (flt_units lit_0_1 s lit_0_1_binary64 V Fc F) as Ha.
  pose proof (flt_units s (fneg lit_0_1) V neg_lit_0_1_binary64 F Fn) as Hb.
  rewrite units_neg_lit_0_1 in Hb.
  change (flt lit_0_1 s) with (fgt s lit_0_1) in Ha.
  assert (Hu : 0 < units lit_0_1).
  { rewrite lit_0_1_value. cbn [units].
    apply Z.mul_pos_pos; [lia | apply Z.pow_pos_nonneg; lia]. }
  destruct (fgt s lit_0_1) eqn:G.
  - rewrite (Hpos eq_refl).
    assert (units lit_0_1 < units s) by (apply Ha; reflexivity).
    repeat split; intros; try discriminate; try lia.
  - destruct (flt s (fneg lit_0_1)) eqn:L.
    + rewrite (Hneg eq_refl).
      assert (units s < - units lit_0_1) by (apply Hb; reflexivity).
      repeat split; intros; try discriminate; try lia.
    + rewrite (Hneu eq_refl eq_refl).
      assert (~ units lit_0_1 < units s) by (intros X; apply Ha in X; discriminate).
      assert (~ units s < - units lit_0_1) by (intros X; apply Hb in X; discriminate).
      repeat split; intros; try discriminate; try lia.
Qed.

Lemma categorize_sentiment_spec_witness :
  fgt lit_0_5 lit_0_1 = true /\
  binary64 lit_0_5 = true /\ is_finite lit_0_5 = true /\
  categorize_sentiment lit_0_5 = "positive" /\
  units lit_0_1 < units lit_0_5.
Proof.
  pose proof (categorize_sentiment_spec lit_0_5) as (P & _ & _ & _ & _ & _ & U).
  assert (G : fgt lit_0_5 lit_0_1 = true) by (vm_compute; reflexivity).
  assert (V : binary64 lit_0_5 = true) by (vm_compute; reflexivity).
  assert (F : is_finite lit_0_5 = true) by (vm_compute; reflexivity).
  split; [exact G |]. split; [exact V |]. split; [exact F |].
  split; [exact (P G) |].
  destruct (U V F) as (Up & _). apply Up. exact (P G).
Defined.

(* ===================================================================== *)
(** * The record normaliser                                              *)
(* ===================================================================== *)

Section Normaliser.

Lemma get_field (d : list (string * json)) (key : string) (default : json) :
  get (JObj d) key default = Ret (field (JObj d) key default).
Proof. reflexivity. Qed.

Lemma str_dict_get_Exception d k x e :
  str_dict_get d k x = Raise e -> is_Exception e = true.
Proof. destruct k; cbn; intros H; inversion H; reflexivity. Qed.

Lemma int_of_str_Exception s e :
  int_of_str s = Raise e -> is_Exception e = true.
Proof.
  unfold int_of_str, int_of_text.
  destruct (numeric_text s) as [text |];
    [| intros H; inversion H; reflexivity].
  destruct (drop_underscores None (strip text));
    [| intros H; inversion H; reflexivity].
  destruct (take_sign l) as [neg l1].
  destruct (take_digits l1 0 0) as [[n cnt] [| c r]];
    [destruct (_ || _) |]; intros H; inversion H; reflexivity.
Qed.

Lemma float_of_str_Exception s e :
  float_of_str s = Raise e -> is_Exception e = true.
Proof.
  unfold float_of_str, float_of_text.
  destruct (numeric_text s) as [text |];
    [| intros H; inversion H; reflexivity].
  destruct (drop_underscores None (strip text));
    [| intros H; inversion H; reflexivity].
  destruct (take_sign l) as [neg l1].
  destruct (_ || _); [discriminate |].
  destruct (String.eqb _ "nan"); [discriminate |].
  destruct (parse_decimal l1) as [[m k] |]; intros H; inversion H; reflexivity.
Qed.

Lemma float_of_Exception v e :
  float_of v = Raise e -> is_Exception e = true.
Proof.
  destruct v; cbn [float_of]; try (intros H; inversion H; reflexivity).
  - destruct (is_finite _); intros H; inversion H; reflexivity.
  - apply float_of_str_Exception.
Qed.

Lemma int_of_Exception v e :
  int_of v = Raise e -> is_Exception e = true.
Proof.
  destruct v; cbn [int_of]; try (intros H; inversion H; reflexivity).
  - destruct f; cbn [trunc]; intros H; inversion H; reflexivity.
  - apply int_of_str_Exception.
Qed.

(** [process_message] never raises, leaves the store alone, only adds to
    the log, returns [normalized], and reports every failure at level
    ERROR. *)
Lemma process_message_run (msg : json) (st : state) :
  exists entries,
    process_message msg st =
      (Ret (normalized msg), mkState (log st ++ entries) (store st)) /\
    (normalized msg = None ->
     In (ERROR, "Error processing message:") entries).
Proof.
  unfold process_message, normalized.
  unfold raw_keyword, raw_sentiment, raw_length.
  unfold try_except, bind, lift, logger_info, logger_warning, logger_error,
    emit, ret, Exception_; cbn [log store fst snd].
  destruct msg as [ | b | n | f | s | items | d ];
    try (cbn [get select_handler Exception_ is_Exception log store];
         eexists; split;
         [ rewrite <- !app_assoc; reflexivity
         | intros _; cbn; tauto ]).
  rewrite !get_field.
  destruct (str_dict_get KEYWORD_CATEGORIES _ "unknown") as [cat | e1] eqn:E1.
  2:{ cbn [select_handler Exception_].
      rewrite (str_dict_get_Exception _ _ _ _ E1); cbn [log store].
      eexists; split; [rewrite <- !app_assoc; reflexivity |].
      intros _; cbn; tauto. }
  destruct (float_of _) as [sc | e2] eqn:E2.
  2:{ cbn [select_handler Exception_].
      rewrite (float_of_Exception _ _ E2); cbn [log store].
      eexists; split; [rewrite <- !app_assoc; reflexivity |].
      intros _; cbn; tauto. }
  destruct (int_of _) as [len | e3] eqn:E3.
  - destruct (truthy _); [destruct (negb _) |]; cbn [log store];
      (eexists; split; [rewrite <- !app_assoc; reflexivity | discriminate]).
  - cbn [select_handler Exception_].
    destruct (truthy _); [destruct (negb _) |]; cbn [log store select_handler];
      rewrite (int_of_Exception _ _ E3); cbn [log store];
      (eexists; split; [rewrite <- !app_assoc; reflexivity |]);
      intros _; cbn; tauto.
Qed.

End Normaliser.

(* ===================================================================== *)
(** * The store gateway and the ingestion loop                           *)
(* ===================================================================== *)

Section Loop.

Lemma same_outcome_refl {A} (o : res A * state) : same_outcome o o.
Proof. split; reflexivity. Qed.

Lemma same_outcome_trans {A} (o1 o2 o3 : res A * state) :
  same_outcome o1 o2 -> same_outcome o2 o3 -> same_outcome o1 o3.
Proof.
  unfold same_outcome, same_store. intros [A1 B1] [A2 B2]. split; congruence.
Qed.

Lemma same_outcome_sym {A} (o1 o2 : res A * state) :
  same_outcome o1 o2 -> same_outcome o2 o1.
Proof. unfold same_outcome, same_store. intros [A1 B1]. split; congruence. Qed.

(** ** The [for] loop, for any body *)

Section ForEach.

Variable body : json -> M unit.

(** The loop over a concatenation. *)
Lemma for_each_app (l1 l2 : KafkaConsumer) (st : state) :
  for_each (l1 ++ l2) body st =
  match for_each l1 body st with
  | (Ret _, st1) => for_each l2 body st1
  | (Raise e, st1) => (Raise e, st1)
  end.
Proof.
  revert st. induction l1 as [| [v | e] l1 IH]; intros st; cbn [for_each app].
  - reflexivity.
  - unfold bind. destruct (body v st) as [[[] | e] st1]; [apply IH | reflexivity].
  - reflexivity.
Qed.

(** An exception raised by the pull, or by a turn of the loop, ends the
    loop where it occurs. *)
Lemma for_each_stops (pre post : KafkaConsumer) (ev : event) (e : exn)
    (st st1 st2 : state) :
  for_each pre body st = (Ret tt, st1) ->
  for_each [ev] body st1 = (Raise e, st2) ->
  for_each (pre ++ ev :: post) body st = (Raise e, st2).
Proof.
  intros Hpre Hev. rewrite for_each_app, Hpre.
  destruct ev as [v | e']; cbn [for_each] in *.
  - unfold bind in *.
    destruct (body v st1) as [[[] | e1] s1]; cbn in Hev;
      [discriminate | exact Hev].
  - exact Hev.
Qed.

Section Determined.

(** When a turn depends on the store alone, so does the loop. *)
Hypothesis body_same :
  forall v st1 st2,
    same_store st1 st2 -> same_outcome (body v st1) (body v st2).

Lemma for_each_determined (l : KafkaConsumer) (st1 st2 : state) :
  same_store st1 st2 ->
  same_outcome (for_each l body st1) (for_each l body st2).
Proof.
  revert st1 st2. induction l as [| [v | e] l IH]; intros st1 st2 E;
    cbn [for_each].
  - split; [reflexivity | exact E].
  - unfold bind.
    destruct (body_same v st1 st2 E) as [R S].
    destruct (body v st1) as [r1 s1].
    destruct (body v st2) as [r2 s2].
    cbn [fst snd] in R, S. subst r2.
    destruct r1 as [[] | e]; [apply IH; exact S | split; [reflexivity | exact S]].
  - split; [reflexivity | exact E].
Qed.

End Determined.

Section Invariant.

(** A property of the store that every turn keeps is kept by the loop. *)
Variable P : Sqlite.path_state -> Prop.

Hypothesis body_keeps :
  forall v st, P (store st) -> P (store (snd (body v st))).

Lemma for_each_keeps (l : KafkaConsumer) (st : state) :
  P (store st) -> P (store (snd (for_each l body st))).
Proof.
  revert st. induction l as [| [v | e] l IH]; intros st H;
    cbn [for_each]; try exact H.
  unfold bind.
  pose proof (body_keeps v st H) as H1.
  destruct (body v st) as [[[] | e] st1]; cbn [snd] in *;
    [apply IH; exact H1 | exact H1].
Qed.

End Invariant.

End ForEach.

(** ** The store gateway *)

(** [insert_message] raises only subclasses of [Exception]. *)
Lemma bind_Exception v e : Sqlite.bind v = Raise e -> is_Exception e = true.
Proof.
  destruct v; cbn; try (intros H; inversion H; reflexivity).
  destruct (_ && _); intros H; inversion H; reflexivity.
Qed.

Lemma bind_all_Exception l e :
  Sqlite.bind_all l = Raise e -> is_Exception e = true.
Proof.
  induction l as [| v l IH]; cbn; [discriminate |].
  destruct (Sqlite.bind v) eqn:B; cbn.
  - destruct (Sqlite.bind_all l); cbn; [discriminate |].
    intros H; inversion H; subst. now apply IH.
  - intros H; inversion H; subst. now apply bind_Exception in B.
Qed.

Lemma insert_into_messages_Exception db params e :
  Sqlite.insert_into_messages db params = Raise e -> is_Exception e = true.
Proof.
  destruct db; cbn; [| intros H; inversion H; reflexivity].
  destruct (Sqlite.bind_all params) eqn:B; cbn; [discriminate |].
  intros H; inversion H; subst. now apply bind_all_Exception in B.
Qed.

(** [insert_message] does not log, and what it does depends on the store
    alone. *)
Lemma insert_message_run (pm : processed) (st : state) :
  exists r p,
    insert_message pm st = (r, mkState (log st) p) /\
    (forall st2, store st2 = store st ->
       insert_message pm st2 = (r, mkState (log st2) p)) /\
    (forall e, r = Raise e -> is_Exception e = true).
Proof.
  unfold insert_message, bind, lift, get_store, set_store.
  destruct st as [l p]; cbn [log store].
  destruct (Sqlite.connect p) as [[rm db] | e] eqn:C.
  - cbn [log store].
    destruct (Sqlite.insert_into_messages db _) as [db' | e] eqn:I.
    + eexists _, _. split; [reflexivity |]. split.
      * intros [l2 p2] E; cbn in E; subst p2; cbn [log store].
        rewrite C; cbn [log store]. rewrite I. reflexivity.
      * discriminate.
    + eexists _, _. split; [reflexivity |]. split.
      * intros [l2 p2] E; cbn in E; subst p2; cbn [log store].
        rewrite C; cbn [log store]. rewrite I. reflexivity.
      * intros e' H; inversion H; subst.
        now apply insert_into_messages_Exception in I.
  - eexists _, _. split; [reflexivity |]. split.
    + intros [l2 p2] E; cbn in E; subst p2; cbn [log store].
      rewrite C. reflexivity.
    + intros e' H; inversion H; subst.
      destruct p; cbn in C; inversion C; reflexivity.
Qed.

(** One turn of the loop: the result and the store afterwards depend on
    the store alone, and only [Exception]s come out. *)
Lemma process_and_insert_same (v : json) (st1 st2 : state) :
  same_store st1 st2 ->
  same_outcome (process_and_insert v st1) (process_and_insert v st2).
Proof.
  unfold same_store. intros E. unfold process_and_insert, bind.
  destruct (process_message_run v st1) as (l1 & -> & _).
  destruct (process_message_run v st2) as (l2 & -> & _).
  destruct (normalized v) as [pm |].
  - destruct (insert_message_run pm (mkState (log st1 ++ l1) (store st1)))
      as (r & p & H1 & H2 & _).
    rewrite H1. rewrite (H2 (mkState (log st2 ++ l2) (store st2)))
      by (cbn; congruence).
    split; reflexivity.
  - split; cbn; [reflexivity | exact E].
Qed.

Lemma process_and_insert_Exception (v : json) (st st' : state) (e : exn) :
  process_and_insert v st = (Raise e, st') -> is_Exception e = true.
Proof.
  unfold process_and_insert, bind.
  destruct (process_message_run v st) as (l1 & -> & _).
  destruct (normalized v) as [pm |]; [| discriminate].
  destruct (insert_message_run pm (mkState (log st ++ l1) (store st)))
    as (r & p & H1 & _ & H3).
  rewrite H1. intros H; inversion H; subst. now apply H3.
Qed.

(** A record that does not normalise is skipped: the turn returns
    normally, the store is untouched, an error is logged. *)
Lemma process_and_insert_skip (v : json) (st : state) :
  normalized v = None ->
  exists entries,
    process_and_insert v st = (Ret tt, mkState (log st ++ entries) (store st)) /\
    In (ERROR, "Error processing message:") entries.
Proof.
  intros N. unfold process_and_insert, bind.
  destruct (process_message_run v st) as (l1 & -> & HE).
  rewrite N. exists l1. split; [reflexivity | auto].
Qed.

(** The loop of the consumer depends on the store alone. *)
Lemma for_each_same (l : KafkaConsumer) (st1 st2 : state) :
  same_store st1 st2 ->
  same_outcome (for_each l process_and_insert st1)
               (for_each l process_and_insert st2).
Proof. apply for_each_determined. exact process_and_insert_same. Qed.

(** The [try] around the loop logs an [Exception] and raises it again;
    anything else passes through. *)
Lemma consume_loop_run (l : KafkaConsumer) (st : state) :
  consume_loop l st =
  match for_each l process_and_insert st with
  | (Ret a, st') => (Ret a, st')
  | (Raise e, st') =>
      if is_Exception e
      then (Raise e,
            mkState (log st' ++
                     [(ERROR, "ERROR: Could not consume messages from Kafka:")])
                    (store st'))
      else (Raise e, st')
  end.
Proof.
  unfold consume_loop, try_except.
  destruct (for_each l process_and_insert st) as [[a | e] st']; [reflexivity |].
  cbn [select_handler]. unfold Exception_.
  destruct (is_Exception e); reflexivity.
Qed.

Lemma consume_loop_same (l : KafkaConsumer) (st1 st2 : state) :
  same_store st1 st2 ->
  same_outcome (consume_loop l st1) (consume_loop l st2).
Proof.
  intros E. rewrite !consume_loop_run.
  destruct (for_each_same l st1 st2 E) as [R S].
  destruct (for_each l process_and_insert st1) as [r1 s1].
  destruct (for_each l process_and_insert st2) as [r2 s2].
  cbn [fst snd] in R, S. subst r2.
  destruct r1 as [a | e]; [split; [reflexivity | exact S] |].
  destruct (is_Exception e); split; try reflexivity; exact S.
Qed.

End Loop.

(* ===================================================================== *)
(** * The process: bootstrap, consumption, shutdown                      *)
(* ===================================================================== *)

Section Process.

Lemma fresh_start_run (st : state) :
  fresh_start st =
  match store st with
  | Sqlite.Exists true _ =>
      (Ret tt,
       mkState (log st ++
                [(INFO, "STEP 2. Delete any prior database file for a fresh start.");
                 (INFO, "SUCCESS: Deleted database file.");
                 (INFO, "STEP 3. Initialize a new database with an empty table.")])
               empty_store)
  | Sqlite.Exists false _ =>
      (Raise (SystemExit 2),
       logged st
         [(INFO, "STEP 2. Delete any prior database file for a fresh start.");
          (ERROR, "ERROR: Failed to delete DB file:")])
  | Sqlite.Absent =>
      (Ret tt,
       mkState (log st ++
                [(INFO, "STEP 2. Delete any prior database file for a fresh start.");
                 (INFO, "STEP 3. Initialize a new database with an empty table.")])
               empty_store)
  | Sqlite.NoDirectory =>
      (Raise (SystemExit 3),
       logged st
         [(INFO, "STEP 2. Delete any prior database file for a fresh start.");
          (INFO, "STEP 3. Initialize a new database with an empty table.");
          (ERROR, "ERROR: Failed to create db table:")])
  end.
Proof.
  destruct st as [l p]. unfold logged.
  destruct p as [ | | [] db]; cbn; rewrite <- ?app_assoc; reflexivity.
Qed.

(** [consume_messages_from_kafka], case by case on what the
    collaborators do. *)
Lemma consume_messages_run (ext : collaborators) (topic url group : string)
    (secs : Z) (st : state) :
  consume_messages_from_kafka ext topic url group secs st =
  match verify_services ext with
  | Raise e =>
      if is_Exception e
      then (Raise (SystemExit 11),
            logged st (consume_banner ++
              [(ERROR, "ERROR: Kafka services verification failed:")]))
      else (Raise e, logged st consume_banner)
  | Ret _ =>
      match create_kafka_consumer ext topic group with
      | Raise e =>
          if is_Exception e
          then (Raise (SystemExit 11),
                logged st (consume_banner ++
                  [(INFO, "Step 2. Create a Kafka consumer.");
                   (ERROR, "ERROR: Could not create Kafka consumer:")]))
          else (Raise e,
                logged st (consume_banner ++
                  [(INFO, "Step 2. Create a Kafka consumer.")]))
      | Ret None =>
          (Raise (SystemExit 13),
           logged st (consume_banner ++
             [(INFO, "Step 2. Create a Kafka consumer.");
              (INFO, "Step 3. Verify topic exists.");
              (INFO, "Step 4. Process messages.");
              (ERROR, "ERROR: Consumer is None. Exiting.")]))
      | Ret (Some records) =>
          match is_topic_available ext topic with
          | Raise e =>
              if is_Exception e
              then (Raise (SystemExit 13),
                    logged st (consume_banner ++
                      [(INFO, "Step 2. Create a Kafka consumer.");
                       (INFO, "Step 3. Verify topic exists.");
                       (ERROR, "ERROR: Topic does not exist. Please run the Kafka producer.")]))
              else (Raise e,
                    logged st (consume_banner ++
                      [(INFO, "Step 2. Create a Kafka consumer.");
                       (INFO, "Step 3. Verify topic exists.")]))
          | Ret _ =>
              consume_loop records
                (logged st (consume_banner ++
                   [(INFO, "Step 2. Create a Kafka consumer.");
                    (INFO, "Step 3. Verify topic exists.");
                    (INFO, "Kafka topic is ready.");
                    (INFO, "Step 4. Process messages.")]))
          end
      end
  end.
Proof.
  destruct st as [l p].
  unfold consume_messages_from_kafka, logged, consume_banner.
  unfold try_except, bind, lift, logger_info, logger_warning, logger_error,
    emit, ret, sys_exit, raise, Exception_;
    cbn [log store select_handler].
  destruct (verify_services ext) as [[] | e1].
  2:{ destruct (is_Exception e1); cbn [log store];
        rewrite <- ?app_assoc; reflexivity. }
  destruct (create_kafka_consumer ext topic group) as [[records |] | e2].
  3:{ destruct (is_Exception e2); cbn [log store];
        rewrite <- ?app_assoc; reflexivity. }
  2:{ cbn [log store]. rewrite <- ?app_assoc. reflexivity. }
  destruct (is_topic_available ext topic) as [b | e3].
  2:{ destruct (is_Exception e3); cbn [log store];
        rewrite <- ?app_assoc; reflexivity. }
  cbn [log store]. rewrite <- ?app_assoc. reflexivity.
Qed.

(** [main], case by case. *)
Lemma main_run (ext : collaborators) (st : state) :
  main ext st =
  match read_config ext with
  | Raise e =>
      if is_Exception e
      then (Raise (SystemExit 1),
            logged st (main_banner ++
              [(ERROR, "ERROR: Failed to read environment variables:")]))
      else (Raise e, logged st main_banner)
  | Ret cfg =>
      match fresh_start
              (logged st (main_banner ++
                 [(INFO, "SUCCESS: Read environment variables.")])) with
      | (Raise e, st1) => (Raise e, st1)
      | (Ret _, st1) =>
          shutdown
            (consume_messages_from_kafka ext (kafka_topic cfg)
               (kafka_broker_address cfg) (kafka_consumer_group_id cfg)
               (message_interval_seconds cfg)
               (logged st1
                  [(INFO, "STEP 4. Begin consuming and storing messages.")]))
      end
  end.
Proof.
  destruct st as [l p].
  unfold main, shutdown, logged, main_banner.
  unfold try_finally, try_except, bind, lift, logger_info, logger_warning,
    logger_error, emit, ret, sys_exit, raise, Exception_, KeyboardInterrupt_;
    cbn [log store select_handler].
  destruct (read_config ext) as [cfg | e1].
  2:{ destruct (is_Exception e1); cbn [log store];
        rewrite <- ?app_assoc; reflexivity. }
  cbn [log store]. rewrite <- ?app_assoc. cbn [app].
  destruct (fresh_start _) as [[[] | e2] st1]; [| reflexivity].
  destruct (consume_messages_from_kafka _ _ _ _ _ _) as [[[] | e3] st2];
    [reflexivity |].
  destruct e3; cbn [is_Exception log store]; rewrite <- ?app_assoc;
    reflexivity.
Qed.

End Process.

(* ===================================================================== *)
(** * Properties of the normaliser                                       *)
(* ===================================================================== *)

Section NormaliserProperties.

Lemma process_message_Some (msg : json) (st st' : state) (pm : processed) :
  process_message msg st = (Ret (Some pm), st') ->
  normalized msg = Some pm /\ store st' = store st.
Proof.
  destruct (process_message_run msg st) as (l & -> & _).
  intros H; inversion H; subst. split; reflexivity.
Qed.

Lemma process_message_None (msg : json) (st st' : state) :
  process_message msg st = (Ret None, st') ->
  normalized msg = None /\ store st' = store st.
Proof.
  destruct (process_message_run msg st) as (l & -> & _).
  intros H; inversion H; subst. split; reflexivity.
Qed.

Lemma str_dict_get_succeeds (d : list (string * string)) (k : json) (x : string) :
  succeeds (str_dict_get d k x) = hashable k.
Proof. destruct k; reflexivity. Qed.

Lemma normalized_Some_inv (msg : json) (pm : processed) :
  normalized msg = Some pm ->
  is_dict msg = true /\
  str_dict_get KEYWORD_CATEGORIES (raw_keyword msg) "unknown" = Ret (category pm) /\
  float_of (raw_sentiment msg) = Ret (sentiment pm) /\
  int_of (raw_length msg) = Ret (message_length pm) /\
  message pm = field msg "message" JNull /\
  author pm = field msg "author" JNull /\
  timestamp pm = field msg "timestamp" JNull /\
  keyword_mentioned pm = raw_keyword msg /\
  sentiment_category pm = categorize_sentiment (sentiment pm).
Proof.
  unfold normalized.
  destruct msg; try discriminate.
  destruct (str_dict_get _ _ _) as [cat |]; [| discriminate].
  destruct (float_of _) as [s |]; [| discriminate].
  destruct (int_of _) as [n |]; [| discriminate].
  intros H; inversion H; subst; cbn. repeat split; reflexivity.
Qed.

Lemma normalized_None_iff (msg : json) :
  normalized msg = None <->
  (is_dict msg = false \/
   hashable (raw_keyword msg) = false \/
   succeeds (float_of (raw_sentiment msg)) = false \/
   succeeds (int_of (raw_length msg)) = false).
Proof.
  unfold normalized.
  destruct msg; try (split; [intros _; left; reflexivity | reflexivity]).
  rewrite <- (str_dict_get_succeeds KEYWORD_CATEGORIES _ "unknown").
  destruct (str_dict_get _ _ _) as [cat |];
    destruct (float_of _) as [s |];
    destruct (int_of _) as [n |]; cbn [succeeds is_dict];
    (split;
     [ intros H; try discriminate; auto 6
     | intros [H | [H | [H | H]]]; try reflexivity; discriminate ]).
Qed.

(** The labels of the mapping: none of them is "unknown". *)
Lemma KEYWORD_CATEGORIES_labels (k v : string) :
  assoc k KEYWORD_CATEGORIES = Some v -> v <> "unknown".
Proof.
  unfold KEYWORD_CATEGORIES. cbn [assoc].
  repeat match goal with
         | |- context [String.eqb k ?x] => destruct (String.eqb k x)
         end;
    intros H; inversion H; discriminate.
Qed.

(** Looking a keyword up in a dictionary none of whose labels is the
    default. *)
Lemma str_dict_get_default (K : list (string * string)) (x : string)
    (kw : json) (cat : string) :
  (forall k v, assoc k K = Some v -> v <> x) ->
  str_dict_get K kw x = Ret cat ->
  (forall k v, kw = JStr k -> assoc k K = Some v -> cat = v) /\
  (cat = x <->
   (kw = JNull \/ ~ exists k v, kw = JStr k /\ assoc k K = Some v)) /\
  (cat = x \/ exists k, assoc k K = Some cat).
Proof.
  intros L C.
  destruct kw as [ | b | n | f | s | items | d ]; cbn [str_dict_get] in C;
    try discriminate; injection C as C'; subst cat.
  all: try (split; [intros k v E; discriminate |];
            split; [| left; reflexivity];
            split; [intros _; right; intros (k & v & E & _); discriminate
                   | reflexivity]).
  destruct (assoc s K) as [v |] eqn:A.
  - pose proof (L s v A) as NU.
    split; [intros k v' E A'; inversion E; subst; congruence |].
    split; [| right; exists s; exact A].
    split; [intros U; contradiction |].
    intros [E | NK]; [discriminate |].
    exfalso. apply NK. exists s, v. split; [reflexivity | exact A].
  - split; [intros k v' E A'; inversion E; subst; congruence |].
    split; [| left; reflexivity].
    split; [| reflexivity].
    intros _. right. intros (k & v & E & A').
    inversion E; subst. congruence.
Qed.

End NormaliserProperties.

(** C2: for every raw record successfully processed by
    [process_message], [category] is the value of the keyword-to-category
    mapping at [keyword_mentioned] when that keyword is a key of the
    mapping (exact, case-sensitive match), and it is the literal "unknown"
    if and only if [keyword_mentioned] is null or absent or is not a key
    of the mapping; [category] is always a label of the mapping or
    "unknown", never null. *)
Theorem category_of_processed_record :
  forall (msg : json) (st st' : state) (pm : processed),
    process_message msg st = (Ret (Some pm), st') ->
    keyword_mentioned pm = raw_keyword msg /\
    (forall k v, raw_keyword msg = JStr k ->
                 assoc k KEYWORD_CATEGORIES = Some v -> category pm = v) /\
    (category pm = "unknown" <->
     (raw_keyword msg = JNull \/ ~ known_keyword (raw_keyword msg))) /\
    (category pm = "unknown" \/
     exists k, assoc k KEYWORD_CATEGORIES = Some (category pm)).
Proof.
  intros msg st st' pm H.
  apply process_message_Some in H. destruct H as [N _].
  apply normalized_Some_inv in N.
  destruct N as (_ & C & _ & _ & _ & _ & _ & K & _).
  split; [exact K |].
  exact (str_dict_get_default KEYWORD_CATEGORIES "unknown" _ _
           KEYWORD_CATEGORIES_labels C).
Qed.

Lemma category_of_processed_record_witness :
  (exists pm st',
     process_message keyword_Python (initial Sqlite.Absent)
       = (Ret (Some pm), st') /\
     category pm = "tech") /\
  (exists pm st',
     process_message keyword_python (initial Sqlite.Absent)
       = (Ret (Some pm), st') /\
     category pm = "unknown").
Proof.
  split.
  - eassert (E : process_message keyword_Python (initial Sqlite.Absent)
                 = (Ret (Some _), _)) by (vm_compute; reflexivity).
    eexists _, _. split; [exact E |].
    destruct (category_of_processed_record _ _ _ _ E) as (_ & Hk & _).
    apply (Hk "Python"); reflexivity.
  - eassert (E : process_message keyword_python (initial Sqlite.Absent)
                 = (Ret (Some _), _)) by (vm_compute; reflexivity).
    eexists _, _. split; [exact E |].
    destruct (category_of_processed_record _ _ _ _ E) as (_ & _ & Hu & _).
    apply Hu. right. intros (k & v & Ek & A).
    inversion Ek; subst. vm_compute in A. discriminate.
Defined.

(** Not only the two numeric conversions make [process_message] return
    no result: hashing a keyword that is a list raises inside the [try],
    although [sentiment] and [message_length] (both absent here) convert
    to their defaults. *)
Lemma unhashable_keyword_is_rejected :
  fst (process_message keyword_is_a_list (initial Sqlite.Absent)) = Ret None /\
  ~ (succeeds (float_of (raw_sentiment keyword_is_a_list)) = false \/
     succeeds (int_of (raw_length keyword_is_a_list)) = false).
Proof.
  split; [vm_compute; reflexivity |].
  vm_compute. intros [H | H]; discriminate.
Qed.

(** C3 (amended): normalisation is atomic.  For every decoded value,
    [process_message] never raises and never touches the store; it
    returns either a record with all eight fields set or no result; it
    returns no result exactly when something raises inside its [try]:
    the value is not a dictionary, [keyword_mentioned] cannot be hashed,
    [sentiment] does not convert to a float, or [message_length] does not
    convert to an integer.  A record with no result is not inserted: its
    turn of the loop returns normally and leaves the store as it was. *)
Theorem process_message_atomic :
  forall (msg : json) (st : state),
  exists (o : option processed) (st' : state),
    process_message msg st = (Ret o, st') /\
    store st' = store st /\
    (o = None <->
     (is_dict msg = false \/
      hashable (raw_keyword msg) = false \/
      succeeds (float_of (raw_sentiment msg)) = false \/
      succeeds (int_of (raw_length msg)) = false)) /\
    (forall pm, o = Some pm ->
       message pm = field msg "message" JNull /\
       author pm = field msg "author" JNull /\
       timestamp pm = field msg "timestamp" JNull /\
       str_dict_get KEYWORD_CATEGORIES (raw_keyword msg) "unknown"
         = Ret (category pm) /\
       float_of (raw_sentiment msg) = Ret (sentiment pm) /\
       sentiment_category pm = categorize_sentiment (sentiment pm) /\
       keyword_mentioned pm = raw_keyword msg /\
       int_of (raw_length msg) = Ret (message_length pm)) /\
    (o = None ->
     exists st'', process_and_insert msg st = (Ret tt, st'') /\
                  store st'' = store st).
Proof.
  intros msg st.
  destruct (process_message_run msg st) as (l & E & _).
  exists (normalized msg), (mkState (log st ++ l) (store st)).
  split; [exact E |]. split; [reflexivity |].
  split; [apply normalized_None_iff |].
  split.
  - intros pm N. apply normalized_Some_inv in N.
    destruct N as (_ & C & F & I & Hm & Ha & Ht & K & SC).
    repeat split; assumption.
  - intros N.
    destruct (process_and_insert_skip msg st N) as (l' & E' & _).
    eexists. split; [exact E' | reflexivity].
Qed.

(** C9: for every raw record in which the [sentiment] key is present with
    the value null, [process_message] returns no result and the record is
    not inserted; the default [0.0] is used when the key is absent, and
    only then: when the key is present the sentiment of a processed
    record is the float its value converts to. *)
Theorem null_sentiment_rejects_record :
  forall (d : list (string * json)) (st : state),
    (assoc "sentiment" d = Some JNull ->
     exists st',
       process_message (JObj d) st = (Ret None, st') /\
       store st' = store st /\
       exists st'',
         process_and_insert (JObj d) st = (Ret tt, st'') /\
         store st'' = store st) /\
    (forall pm st',
       process_message (JObj d) st = (Ret (Some pm), st') ->
       (assoc "sentiment" d = None -> sentiment pm = lit_0_0) /\
       (forall v, assoc "sentiment" d = Some v ->
                  float_of v = Ret (sentiment pm) /\ v <> JNull)).
Proof.
  intros d st. split.
  - intros A.
    assert (N : normalized (JObj d) = None).
    { apply normalized_None_iff. right. right. left.
      unfold raw_sentiment, field. rewrite A. reflexivity. }
    destruct (process_message_run (JObj d) st) as (l & E & _).
    rewrite N in E. eexists. split; [exact E |]. split; [reflexivity |].
    destruct (process_and_insert_skip (JObj d) st N) as (l' & E' & _).
    eexists. split; [exact E' | reflexivity].
  - intros pm st' E.
    apply process_message_Some in E. destruct E as [N _].
    apply normalized_Some_inv in N.
    destruct N as (_ & _ & F & _).
    unfold raw_sentiment, field in F. split.
    + intros A. rewrite A in F. cbn in F. congruence.
    + intros v A. rewrite A in F. split; [exact F |].
      intros ->. discriminate.
Qed.

Lemma null_sentiment_rejects_record_witness :
  (exists st',
     process_message (JObj sentiment_is_null) (initial Sqlite.Absent)
       = (Ret None, st')) /\
  (exists pm st',
     process_message (JObj sentiment_is_absent) (initial Sqlite.Absent)
       = (Ret (Some pm), st') /\
     sentiment pm = lit_0_0).
Proof.
  split.
  - destruct (null_sentiment_rejects_record sentiment_is_null
                (initial Sqlite.Absent)) as (H & _).
    destruct (H eq_refl) as (st' & E & _).
    exists st'. exact E.
  - eassert (E : process_message (JObj sentiment_is_absent)
                   (initial Sqlite.Absent) = (Ret (Some _), _))
      by (vm_compute; reflexivity).
    eexists _, _. split; [exact E |].
    destruct (null_sentiment_rejects_record sentiment_is_absent
                (initial Sqlite.Absent)) as (_ & H).
    destruct (H _ _ E) as (D & _). apply D. reflexivity.
Defined.

(* ===================================================================== *)
(** * Conversion of [message_length]                                     *)
(* ===================================================================== *)

Section IntegerConversion.

Lemma trunc_truncates (f : float) :
  is_finite f = true -> exists n, trunc f = Ret n /\ truncates f n.
Proof.
  destruct f as [s | s | | s m e]; try discriminate; intros _; cbn [trunc].
  - exists 0. split; reflexivity.
  - eexists. split; [reflexivity |]. cbn [truncates].
    set (a := if 0 <=? e then Zpos m * 2 ^ e else Zpos m / 2 ^ (- e)).
    assert (Ha : 0 <= a /\
                 a * 2 ^ Z.max 0 (- e) <= Zpos m * 2 ^ Z.max 0 e
                   < (a + 1) * 2 ^ Z.max 0 (- e)).
    { subst a. destruct (Z.leb_spec 0 e) as [He | He].
      - rewrite (Z.max_l 0 (- e)) by lia. rewrite (Z.max_r 0 e) by lia.
        assert (0 < 2 ^ e) by (apply Z.pow_pos_nonneg; lia).
        change (2 ^ 0) with 1. nia.
      - rewrite (Z.max_r 0 (- e)) by lia. rewrite (Z.max_l 0 e) by lia.
        assert (P : 0 < 2 ^ (- e)) by (apply Z.pow_pos_nonneg; lia).
        change (2 ^ 0) with 1.
        pose proof (Z.div_mod (Zpos m) (2 ^ (- e)) ltac:(lia)) as DM.
        pose proof (Z.mod_pos_bound (Zpos m) (2 ^ (- e)) P) as MB.
        assert (0 <= Zpos m / 2 ^ (- e)) by (apply Z.div_pos; lia).
        nia. }
    destruct Ha as (Ha0 & Ha1).
    destruct s.
    + rewrite Z.abs_opp, Z.abs_eq by lia. split; [lia | exact Ha1].
    + rewrite Z.abs_eq by lia. split; [lia | exact Ha1].
Qed.

(** *** Strings with a decimal point are not integers *)

Lemma lstrip_keeps (c : ascii) (l : list ascii) :
  is_space c = false -> In c l -> In c (lstrip l).
Proof.
  intros Hc. induction l as [| a l IH]; cbn [lstrip]; [auto |].
  intros [-> | Hin].
  - rewrite Hc. left. reflexivity.
  - destruct (is_space a); [auto | right; exact Hin].
Qed.

Lemma strip_keeps (c : ascii) (l : list ascii) :
  is_space c = false -> In c l -> In c (strip l).
Proof.
  intros Hc Hin. unfold strip.
  apply -> in_rev. apply lstrip_keeps; [exact Hc |].
  apply -> in_rev. apply lstrip_keeps; assumption.
Qed.

Lemma drop_underscores_keeps (c : ascii) (l : list ascii) :
  c <> "_"%char ->
  forall prev l', drop_underscores prev l = Some l' -> In c l -> In c l'.
Proof.
  intros Hc. induction l as [| a l IH]; intros prev l' D Hin;
    [destruct Hin |].
  cbn [drop_underscores] in D.
  destruct (Ascii.eqb_spec a "_"%char) as [-> | Ha].
  - destruct Hin as [E | Hin]; [congruence |].
    destruct prev as [p |]; [| discriminate].
    destruct (is_digit p); [| discriminate].
    eapply IH; eassumption.
  - match type of D with
    | (if ?ok then _ else _) = _ => destruct ok; [| discriminate]
    end.
    destruct (drop_underscores (Some a) l) as [l'' |] eqn:D';
      [| discriminate].
    cbn in D. injection D as <-.
    destruct Hin as [-> | Hin]; [left; reflexivity | right].
    eapply IH; eassumption.
Qed.

Lemma take_digits_all (l : list ascii) :
  forall acc cnt n k,
    take_digits l acc cnt = (n, k, []) ->
    forall c, In c l -> is_digit c = true.
Proof.
  induction l as [| a l IH]; intros acc cnt n k T c Hin; [destruct Hin |].
  cbn [take_digits] in T.
  destruct (digit_of a) as [dg |] eqn:Da; [| discriminate].
  destruct Hin as [-> | Hin].
  - unfold is_digit. rewrite Da. reflexivity.
  - eapply IH; eassumption.
Qed.

Lemma take_sign_keeps (c : ascii) (l : list ascii) :
  c <> "-"%char -> c <> "+"%char -> In c l -> In c (snd (take_sign l)).
Proof.
  intros Hm Hp Hin. unfold take_sign.
  destruct l as [| a l]; [destruct Hin |].
  destruct (Ascii.eqb_spec a "-"%char) as [-> | Ha1].
  - cbn. destruct Hin; [congruence | assumption].
  - destruct (Ascii.eqb_spec a "+"%char) as [-> | Ha2].
    + cbn. destruct Hin; [congruence | assumption].
    + replace (snd _) with (a :: l); [exact Hin |].
      destruct a as [[] [] [] [] [] [] [] []]; try reflexivity;
        congruence.
Qed.

(** A character that is no white space, no underscore, no sign and no
    digit makes [int] fail wherever it stands. *)
Lemma int_of_text_rejects (c : ascii) (text : list ascii) :
  is_space c = false -> c <> "_"%char -> c <> "-"%char -> c <> "+"%char ->
  is_digit c = false ->
  In c text ->
  int_of_text text = Raise (PyException "ValueError").
Proof.
  intros Hsp Hu Hm Hp Hd Hin. unfold int_of_text.
  destruct (drop_underscores None (strip text)) as [l |] eqn:D;
    [| reflexivity].
  assert (Hl : In c l).
  { eapply drop_underscores_keeps; [exact Hu | exact D |].
    apply strip_keeps; [exact Hsp | exact Hin]. }
  pose proof (take_sign_keeps c l Hm Hp Hl) as Hs.
  destruct (take_sign l) as [neg l1]. cbn [snd] in Hs.
  destruct (take_digits l1 0 0) as [[n cnt] rest] eqn:T.
  destruct rest as [| r rest]; [| reflexivity].
  pose proof (take_digits_all _ _ _ _ _ T c Hs) as Hd'.
  congruence.
Qed.

Lemma continuation_high (c : ascii) (x : Z) :
  continuation c = Some x -> 128 <= code c.
Proof.
  unfold continuation.
  destruct (Z.leb_spec 128 (code c)); [intros _; assumption | discriminate].
Qed.

(** An ASCII character of a string is one of its code points. *)
Lemma code_points_keeps (c : ascii) :
  code c < 128 ->
  forall (n : nat) (l : list ascii) (cps : list Z),
    (List.length l <= n)%nat ->
    code_points l = Some cps -> In c l -> In (code c) cps.
Proof.
  intros Hc. induction n as [| n IH]; intros l cps Hl D Hin.
  { destruct l; [destruct Hin | cbn in Hl; lia]. }
  destruct l as [| b r]; [destruct Hin |].
  cbn [List.length] in Hl. cbn [code_points] in D.
  destruct (Z.ltb_spec (code b) 128) as [Hb | Hb].
  { destruct (code_points r) as [cps' |] eqn:D'; [| discriminate].
    cbn in D. injection D as <-.
    destruct Hin as [-> | Hin]; [left; reflexivity | right].
    apply (IH r); [lia | exact D' | exact Hin]. }
  assert (Hcb : b <> c) by (intros ->; lia).
  destruct Hin as [E | Hin]; [congruence |].
  destruct (code b <? 192); [discriminate |].
  destruct (code b <? 224).
  { destruct r as [| c1 r1]; [discriminate |].
    destruct (continuation c1) as [x1 |] eqn:C1; [| discriminate].
    apply continuation_high in C1.
    destruct (128 <=? _); [| discriminate].
    destruct (code_points r1) as [cps' |] eqn:D'; [| discriminate].
    cbn in D. injection D as <-. right.
    apply (IH r1); [cbn in Hl; lia | exact D' |].
    destruct Hin as [E | Hin]; [subst c1; lia | exact Hin]. }
  destruct (code b <? 240).
  { destruct r as [| c1 [| c2 r2]]; try discriminate.
    destruct (continuation c1) as [x1 |] eqn:C1; [| discriminate].
    destruct (continuation c2) as [x2 |] eqn:C2; [| discriminate].
    apply continuation_high in C1. apply continuation_high in C2.
    destruct (_ && _); [| discriminate].
    destruct (code_points r2) as [cps' |] eqn:D'; [| discriminate].
    cbn in D. injection D as <-. right.
    apply (IH r2); [cbn in Hl; lia | exact D' |].
    destruct Hin as [E | [E | Hin]];
      [subst c1; lia | subst c2; lia | exact Hin]. }
  destruct (code b <? 248); [| discriminate].
  destruct r as [| c1 [| c2 [| c3 r3]]]; try discriminate.
  destruct (continuation c1) as [x1 |] eqn:C1; [| discriminate].
  destruct (continuation c2) as [x2 |] eqn:C2; [| discriminate].
  destruct (continuation c3) as [x3 |] eqn:C3; [| discriminate].
  apply continuation_high in C1. apply continuation_high in C2.
  apply continuation_high in C3.
  destruct (_ && _); [| discriminate].
  destruct (code_points r3) as [cps' |] eqn:D'; [| discriminate].
  cbn in D. injection D as <-. right.
  apply (IH r3); [cbn in Hl; lia | exact D' |].
  destruct Hin as [E | [E | [E | Hin]]];
    [subst c1; lia | subst c2; lia | subst c3; lia | exact Hin].
Qed.

(** A code point below 127 stays in the ASCII form, unless the string is
    cut before it, and then the form ends in a question mark. *)
Lemma to_ascii_keeps (cp0 : Z) (cps : list Z) :
  cp0 < 127 ->
  In cp0 cps ->
  In (chr cp0) (to_ascii cps) \/ In "?"%char (to_ascii cps).
Proof.
  intros H0. induction cps as [| cp r IH]; [intros [] |].
  intros Hin. cbn [to_ascii].
  destruct (Z.ltb_spec cp 127) as [Hcp | Hcp].
  - destruct Hin as [-> | Hin]; [left; left; reflexivity |].
    destruct (IH Hin); [left | right]; right; assumption.
  - destruct Hin as [-> | Hin]; [lia |].
    destruct (unicode_space cp).
    + destruct (IH Hin); [left | right]; right; assumption.
    + destruct (unicode_decimal cp).
      * destruct (IH Hin); [left | right]; right; assumption.
      * right. left. reflexivity.
Qed.

Lemma int_of_str_decimal_point (s : string) :
  In "."%char (list_ascii_of_string s) ->
  int_of_str s = Raise (PyException "ValueError").
Proof.
  intros Hin. unfold int_of_str, numeric_text.
  destruct (code_points (list_ascii_of_string s)) as [cps |] eqn:D;
    [| reflexivity].
  cbn [option_map].
  assert (Hc : code "."%char < 128) by reflexivity.
  pose proof (code_points_keeps "."%char Hc _ _ _ (Nat.le_refl _) D Hin)
    as Hcp.
  change (code "."%char) with 46 in Hcp.
  destruct (to_ascii_keeps 46 cps ltac:(lia) Hcp) as [H | H].
  - change (chr 46) with "."%char in H.
    apply (int_of_text_rejects "."%char); try discriminate;
      try reflexivity; exact H.
  - apply (int_of_text_rejects "?"%char); try discriminate;
      try reflexivity; exact H.
Qed.

(** The conversions at work: ASCII white space around a number is
    ignored, the separator U+001C is not; the no-break space U+00A0 and
    the fullwidth digits U+FF11, U+FF12 are read as a blank and as 1, 2;
    an integer may have 4300 digits, not 4301. *)
Lemma text_conversions :
  int_of_str " 15 " = Ret 15 /\
  float_of_str "0.5" = Ret lit_0_5 /\
  int_of_str (utf8 [28; 55]) = Raise (PyException "ValueError") /\
  float_of_str (utf8 [28; 48; 46; 53]) = Raise (PyException "ValueError") /\
  int_of_str (utf8 [194; 160; 55]) = Ret 7 /\
  int_of_str (utf8 [239; 188; 145; 239; 188; 146]) = Ret 12 /\
  float_of_str (utf8 [239; 188; 145; 46; 53]) = Ret (float_of_decimal false 15 (-1)) /\
  succeeds (int_of_str (ones 4300)) = true /\
  int_of_str (ones 4301) = Raise (PyException "ValueError") /\
  fst (process_message (JObj [("sentiment", JStr (utf8 [28; 48; 46; 53]))])
         (initial Sqlite.Absent)) = Ret None.
Proof.
  repeat (apply conj; [vm_compute; reflexivity |]).
  vm_compute. reflexivity.
Qed.

End IntegerConversion.

(** A fractional [message_length] does not make [process_message]
    succeed: the length [15.7] converts, to 15, but the record is
    rejected when its [sentiment] is null. *)
Lemma fractional_length_with_null_sentiment :
  assoc "message_length" length_is_15_7_sentiment_is_null
    = Some (JFloat lit_15_7) /\
  int_of (JFloat lit_15_7) = Ret 15 /\
  fst (process_message (JObj length_is_15_7_sentiment_is_null)
         (initial Sqlite.Absent)) = Ret None.
Proof.
  repeat (apply conj; [vm_compute; reflexivity |]).
  vm_compute. reflexivity.
Qed.

(** C10 (amended): for every raw record whose [message_length] is a
    fractional (finite floating-point) number, the conversion of
    [message_length] succeeds and gives that number truncated toward
    zero; [process_message] succeeds exactly when the rest of the record
    converts, that is, when [keyword_mentioned] can be hashed and
    [sentiment] converts to a float, and the resulting [message_length]
    is then the truncated number; whereas a record whose [message_length]
    is a string with a decimal point, such as "15.7", is not parseable as
    an integer and makes the whole record fail. *)
Theorem fractional_message_length :
  forall (d : list (string * json)) (st : state),
    (forall (f : float),
       assoc "message_length" d = Some (JFloat f) ->
       is_finite f = true ->
       (exists n, int_of (raw_length (JObj d)) = Ret n /\ truncates f n) /\
       ((exists pm st', process_message (JObj d) st = (Ret (Some pm), st')) <->
        (hashable (raw_keyword (JObj d)) = true /\
         succeeds (float_of (raw_sentiment (JObj d))) = true)) /\
       (forall pm st',
          process_message (JObj d) st = (Ret (Some pm), st') ->
          truncates f (message_length pm))) /\
    (forall (str : string),
       assoc "message_length" d = Some (JStr str) ->
       In "."%char (list_ascii_of_string str) ->
       exists st',
         process_message (JObj d) st = (Ret None, st') /\
         store st' = store st).
Proof.
  intros d st. split.
  - intros f A Ff.
    destruct (trunc_truncates f Ff) as (n & Tn & Hn).
    assert (I : int_of (raw_length (JObj d)) = Ret n).
    { unfold raw_length, field. rewrite A. exact Tn. }
    split; [exists n; split; [exact I | exact Hn] |].
    destruct (process_message_run (JObj d) st) as (l & E & _).
    split; [split |].
    + intros (pm & st' & E').
      apply process_message_Some in E'. destruct E' as [N _].
      apply normalized_Some_inv in N.
      destruct N as (_ & C & F & _).
      split.
      * rewrite <- (str_dict_get_succeeds KEYWORD_CATEGORIES _ "unknown"), C.
        reflexivity.
      * rewrite F. reflexivity.
    + intros [Hk Hs].
      destruct (normalized (JObj d)) as [pm |] eqn:N.
      * exists pm. eexists. exact E.
      * exfalso. apply normalized_None_iff in N.
        destruct N as [N | [N | [N | N]]].
        -- discriminate.
        -- congruence.
        -- congruence.
        -- rewrite I in N. discriminate.
    + intros pm st' E'.
      apply process_message_Some in E'. destruct E' as [N _].
      apply normalized_Some_inv in N.
      destruct N as (_ & _ & _ & I' & _).
      rewrite I in I'. injection I' as <-. exact Hn.
  - intros str A Hdot.
    assert (N : normalized (JObj d) = None).
    { apply normalized_None_iff. right. right. right.
      unfold raw_length, field. rewrite A. cbn [int_of].
      rewrite (int_of_str_decimal_point str Hdot). reflexivity. }
    destruct (process_message_run (JObj d) st) as (l & E & _).
    rewrite N in E. eexists. split; [exact E | reflexivity].
Qed.

Lemma fractional_message_length_witness :
  (exists pm st',
     process_message (JObj length_is_15_7) (initial Sqlite.Absent)
       = (Ret (Some pm), st') /\
     truncates lit_15_7 (message_length pm) /\
     message_length pm = 15) /\
  (exists st',
     process_message (JObj length_is_text_15_7) (initial Sqlite.Absent)
       = (Ret None, st')).
Proof.
  destruct (fractional_message_length length_is_15_7 (initial Sqlite.Absent))
    as (Hnum & _).
  destruct (fractional_message_length length_is_text_15_7
              (initial Sqlite.Absent)) as (_ & Htext).
  split.
  - assert (A : assoc "message_length" length_is_15_7 = Some (JFloat lit_15_7))
      by reflexivity.
    assert (F : is_finite lit_15_7 = true) by (vm_compute; reflexivity).
    destruct (Hnum lit_15_7 A F) as (_ & (_ & Hyes) & Htr).
    destruct (Hyes (conj eq_refl eq_refl)) as (pm & st' & E).
    exists pm, st'. split; [exact E |]. split; [exact (Htr pm st' E) |].
    assert (E' : fst (process_message (JObj length_is_15_7)
                        (initial Sqlite.Absent)) = Ret (Some pm))
      by (rewrite E; reflexivity).
    vm_compute in E'. injection E' as <-. reflexivity.
  - assert (A : assoc "message_length" length_is_text_15_7
                = Some (JStr "15.7")) by reflexivity.
    assert (D : In "."%char (list_ascii_of_string "15.7"))
      by (cbn; tauto).
    destruct (Htext "15.7" A D) as (st' & E & _).
    exists st'. exact E.
Defined.

(* ===================================================================== *)
(** * Runs that reach the consuming state                                *)
(* ===================================================================== *)

Section Consuming.

Lemma fresh_start_startable (st : state) :
  startable (store st) ->
  exists entries,
    fresh_start st = (Ret tt, mkState (log st ++ entries) empty_store).
Proof.
  intros H. rewrite fresh_start_run.
  destruct H as [-> | [db ->]]; eexists; reflexivity.
Qed.

Lemma main_bootstrapped (ext : collaborators) (p : Sqlite.path_state)
    (records : KafkaConsumer) :
  bootstrapped ext p records ->
  exists l0,
    main ext (initial p) = shutdown (consume_loop records (mkState l0 empty_store)).
Proof.
  intros (Hp & cfg & Hc & Hv & Hk & b & Ht).
  rewrite main_run, Hc.
  destruct (fresh_start_startable
              (logged (initial p)
                 (main_banner ++ [(INFO, "SUCCESS: Read environment variables.")]))
              Hp) as (l1 & ->).
  rewrite consume_messages_run, Hv, Hk, Ht.
  eexists. unfold logged. cbn [log store]. reflexivity.
Qed.

Lemma shutdown_same (o1 o2 : res unit * state) :
  same_outcome o1 o2 -> same_outcome (shutdown o1) (shutdown o2).
Proof.
  destruct o1 as [r1 s1], o2 as [r2 s2]. unfold same_outcome, same_store.
  cbn [fst snd]. intros [-> S]. unfold shutdown.
  destruct r2 as [[] | [n | | c]]; cbn [fst snd logged store]; auto.
Qed.

Lemma consume_loop_of_same (l1 l2 : KafkaConsumer) (st1 st2 : state) :
  same_outcome (for_each l1 process_and_insert st1)
               (for_each l2 process_and_insert st2) ->
  same_outcome (consume_loop l1 st1) (consume_loop l2 st2).
Proof.
  rewrite !consume_loop_run.
  destruct (for_each l1 process_and_insert st1) as [r1 s1].
  destruct (for_each l2 process_and_insert st2) as [r2 s2].
  unfold same_outcome, same_store. cbn [fst snd]. intros [-> S].
  destruct r2 as [a | e]; [split; [reflexivity | exact S] |].
  destruct (is_Exception e); split; try reflexivity; exact S.
Qed.

Lemma rejected_normalized (v : json) : rejected v -> normalized v = None.
Proof.
  intros (st0 & H).
  destruct (process_message_run v st0) as (l & E & _).
  rewrite E in H. cbn in H. congruence.
Qed.

(** Dropping a rejected record from the stream changes neither the
    outcome of the loop nor the store. *)
Lemma for_each_skip (pre post : KafkaConsumer) (bad : json) (st : state) :
  normalized bad = None ->
  same_outcome (for_each (pre ++ Message bad :: post) process_and_insert st)
               (for_each (pre ++ post) process_and_insert st).
Proof.
  intros N. rewrite !for_each_app.
  destruct (for_each pre process_and_insert st) as [[[] | e] st1];
    [| apply same_outcome_refl].
  cbn [for_each]. unfold bind.
  destruct (process_and_insert_skip bad st1 N) as (l & -> & _).
  apply for_each_same. reflexivity.
Qed.

(** An exception ends the loop of the consumer where it occurs. *)
Lemma for_each_raises (pre post : KafkaConsumer) (ev : event) (e : exn)
    (st st1 st2 : state) :
  for_each pre process_and_insert st = (Ret tt, st1) ->
  for_each [ev] process_and_insert st1 = (Raise e, st2) ->
  for_each (pre ++ ev :: post) process_and_insert st = (Raise e, st2).
Proof. apply for_each_stops. Qed.

End Consuming.

(** The collaborators of the examples reach the consuming state. *)
Lemma delivering_bootstrapped (records : KafkaConsumer) :
  bootstrapped (delivering records) Sqlite.Absent records.
Proof.
  split; [left; reflexivity |].
  exists example_config. split; [reflexivity |]. split; [reflexivity |].
  split; [reflexivity |]. exists true. reflexivity.
Defined.

(* ===================================================================== *)
(** * Failure isolation in the ingestion loop                            *)
(* ===================================================================== *)

(** C4: for every sequence of incoming records, a record on which
    normalisation fails is only skipped: its turn of the loop returns
    normally after logging the error, leaving the store as it was, and
    the loop goes on with the next record; nothing is raised out of the
    loop because of it, so the loop, and the whole run, end as they would
    have without that record. *)
Theorem bad_record_is_skipped :
  forall (pre post : KafkaConsumer) (bad : json) (st : state),
    rejected bad ->
    (exists entries,
       process_and_insert bad st = (Ret tt, logged st entries) /\
       In (ERROR, "Error processing message:") entries /\
       for_each (Message bad :: post) process_and_insert st =
       for_each post process_and_insert (logged st entries)) /\
    same_outcome (consume_loop (pre ++ Message bad :: post) st)
                 (consume_loop (pre ++ post) st) /\
    (forall ext1 ext2 p,
       bootstrapped ext1 p (pre ++ Message bad :: post) ->
       bootstrapped ext2 p (pre ++ post) ->
       same_outcome (main ext1 (initial p)) (main ext2 (initial p))).
Proof.
  intros pre post bad st R.
  pose proof (rejected_normalized bad R) as N.
  split; [| split].
  - destruct (process_and_insert_skip bad st N) as (l & E & I).
    exists l. split; [exact E |]. split; [exact I |].
    cbn [for_each]. unfold bind. rewrite E. reflexivity.
  - apply consume_loop_of_same. apply for_each_skip. exact N.
  - intros ext1 ext2 p B1 B2.
    destruct (main_bootstrapped _ _ _ B1) as (l1 & ->).
    destruct (main_bootstrapped _ _ _ B2) as (l2 & ->).
    apply shutdown_same. apply consume_loop_of_same.
    eapply same_outcome_trans; [apply for_each_skip; exact N |].
    apply for_each_same. reflexivity.
Qed.

Lemma bad_record_is_skipped_witness :
  rejected abc_record /\
  same_outcome
    (main (delivering [Message meme_record; Message abc_record;
                       Message greeting_record]) (initial Sqlite.Absent))
    (main (delivering [Message meme_record; Message greeting_record])
          (initial Sqlite.Absent)).
Proof.
  assert (R : rejected abc_record).
  { exists (initial Sqlite.Absent). vm_compute. reflexivity. }
  split; [exact R |].
  destruct (bad_record_is_skipped [Message meme_record]
              [Message greeting_record] abc_record (initial Sqlite.Absent) R)
    as (_ & _ & H).
  apply H; apply delivering_bootstrapped.
Defined.

(** A failing insert ends the loop.  With the [messages] table missing,
    the first insert raises; the loop is left at once, the second record
    is never looked at, and the exception is logged and raised again. *)
Lemma storage_error_halts_loop :
  consume_loop [Message greeting_record; Message meme_record]
    (initial (Sqlite.Exists true None)) =
  (Raise (PyException "sqlite3.OperationalError"),
   mkState
     [ (INFO, "Called process_message() with:");
       (INFO, "   message=");
       (WARNING, "No keyword mentioned in message");
       (INFO, "Processed message:");
       (ERROR, "ERROR: Could not consume messages from Kafka:") ]
     (Sqlite.Exists true None)).
Proof. vm_compute. reflexivity. Qed.

(** C5 (amended): for every record whose insert into the store fails,
    the storage error is not recovered inside the loop.  The exception
    ends the loop at that record, so that no later record is consumed; it
    is logged by [consume_messages_from_kafka] and raised again to
    [main], which logs it as an unexpected error and shuts the consumer
    down. *)
Theorem insert_failure_ends_loop :
  forall (pre post : KafkaConsumer) (v : json) (pm : processed) (e : exn)
         (st st1 st2 st3 : state),
    for_each pre process_and_insert st = (Ret tt, st1) ->
    process_message v st1 = (Ret (Some pm), st2) ->
    insert_message pm st2 = (Raise e, st3) ->
    for_each (pre ++ Message v :: post) process_and_insert st = (Raise e, st3) /\
    consume_loop (pre ++ Message v :: post) st =
      (Raise e,
       logged st3 [(ERROR, "ERROR: Could not consume messages from Kafka:")]) /\
    (forall ext p,
       st = initial empty_store ->
       bootstrapped ext p (pre ++ Message v :: post) ->
       exists l,
         main ext (initial p) =
           (Ret tt,
            mkState (l ++ [(ERROR, "ERROR: Could not consume messages from Kafka:");
                           (ERROR, "Unexpected error:");
                           (INFO, "Consumer shutting down.")])
                    (store st3))).
Proof.
  intros pre post v pm e st st1 st2 st3 Hpre Hpm Hins.
  assert (Hev : for_each [Message v] process_and_insert st1 = (Raise e, st3)).
  { cbn [for_each]. unfold bind, process_and_insert, bind.
    rewrite Hpm, Hins. reflexivity. }
  pose proof (for_each_raises pre post _ _ _ _ _ Hpre Hev) as Hloop.
  assert (He : is_Exception e = true).
  { destruct (insert_message_run pm st2) as (r & p & H1 & _ & H3).
    rewrite H1 in Hins. injection Hins as -> _. now apply H3. }
  split; [exact Hloop |].
  assert (Hc : consume_loop (pre ++ Message v :: post) st =
               (Raise e,
                logged st3
                  [(ERROR, "ERROR: Could not consume messages from Kafka:")])).
  { rewrite consume_loop_run, Hloop, He. reflexivity. }
  split; [exact Hc |].
  intros ext p -> B.
  destruct (main_bootstrapped _ _ _ B) as (l0 & ->).
  pose proof (for_each_same (pre ++ Message v :: post) (initial empty_store)
                (mkState l0 empty_store) eq_refl) as [R S].
  rewrite Hloop in R, S. cbn [fst snd] in R, S.
  rewrite consume_loop_run.
  destruct (for_each (pre ++ Message v :: post) process_and_insert
              (mkState l0 empty_store)) as [r s].
  cbn [fst snd] in R, S. subst r. rewrite He.
  destruct e as [n | | c]; try discriminate.
  exists (log s). unfold shutdown, logged. cbn [log store].
  rewrite <- app_assoc. unfold same_store in S. rewrite S. reflexivity.
Qed.

Lemma insert_failure_ends_loop_witness :
  exists st3,
    for_each [Message meme_record; Message list_record; Message greeting_record]
      process_and_insert (initial empty_store) =
    (Raise (PyException "sqlite3.ProgrammingError"), st3).
Proof.
  eassert (Hpre : for_each [Message meme_record] process_and_insert
                    (initial empty_store) = (Ret tt, _))
    by (vm_compute; reflexivity).
  match type of Hpre with
  | _ = (_, ?s1) =>
      eassert (Hpm : process_message list_record s1 = (Ret (Some _), _))
        by (vm_compute; reflexivity)
  end.
  match type of Hpm with
  | _ = (Ret (Some ?pm), ?s2) =>
      eassert (Hins : insert_message pm s2
                      = (Raise (PyException "sqlite3.ProgrammingError"), _))
        by (vm_compute; reflexivity)
  end.
  eexists.
  exact (proj1 (insert_failure_ends_loop [Message meme_record]
                  [Message greeting_record] list_record _ _ _ _ _ _
                  Hpre Hpm Hins)).
Defined.

(* ===================================================================== *)
(** * Stream errors and exit statuses                                    *)
(* ===================================================================== *)

(** A stream error does not give a nonzero exit status: when the pull
    raises an [Exception], [main] catches it, logs it and returns, and
    the process ends with status 0. *)
Lemma stream_error_exits_zero :
  fst (run (delivering [Message meme_record; Failure (PyException "KafkaError")])
           Sqlite.Absent) = 0.
Proof. vm_compute. reflexivity. Qed.

(** C8 (amended): for every stream-level error (an [Exception] raised by
    the pull, not by the handling of a record), the ingestion loop exits
    without consuming what follows, [consume_messages_from_kafka] logs
    the error and raises it again to its caller, and [main] logs it as an
    unexpected error, shuts the consumer down and returns: the process
    ends after logging, with exit status 0. *)
Theorem stream_error_ends_consumer :
  forall (pre post : KafkaConsumer) (name : string),
    (forall st st1,
       for_each pre process_and_insert st = (Ret tt, st1) ->
       consume_loop (pre ++ Failure (PyException name) :: post) st =
         (Raise (PyException name),
          logged st1 [(ERROR, "ERROR: Could not consume messages from Kafka:")])) /\
    (forall ext p st1,
       bootstrapped ext p (pre ++ Failure (PyException name) :: post) ->
       for_each pre process_and_insert (initial empty_store) = (Ret tt, st1) ->
       exists l,
         main ext (initial p) =
           (Ret tt,
            mkState (l ++ [(ERROR, "ERROR: Could not consume messages from Kafka:");
                           (ERROR, "Unexpected error:");
                           (INFO, "Consumer shutting down.")])
                    (store st1)) /\
         fst (run ext p) = 0).
Proof.
  intros pre post name.
  assert (L : forall st st1,
             for_each pre process_and_insert st = (Ret tt, st1) ->
             consume_loop (pre ++ Failure (PyException name) :: post) st =
               (Raise (PyException name),
                logged st1
                  [(ERROR, "ERROR: Could not consume messages from Kafka:")])).
  { intros st st1 Hpre.
    rewrite consume_loop_run.
    rewrite (for_each_raises pre post (Failure (PyException name))
               (PyException name) st st1 st1 Hpre eq_refl).
    reflexivity. }
  split; [exact L |].
  intros ext p st1 B Hpre.
  destruct (main_bootstrapped _ _ _ B) as (l0 & Hmain).
  pose proof (for_each_same pre (initial empty_store) (mkState l0 empty_store)
                eq_refl) as [R S].
  rewrite Hpre in R, S. cbn [fst snd] in R, S.
  destruct (for_each pre process_and_insert (mkState l0 empty_store))
    as [r1 s1] eqn:Hpre'.
  cbn [fst snd] in R, S. subst r1.
  rewrite (L _ _ Hpre') in Hmain.
  assert (E : main ext (initial p) =
              (Ret tt,
               mkState (log s1 ++
                        [(ERROR, "ERROR: Could not consume messages from Kafka:");
                         (ERROR, "Unexpected error:");
                         (INFO, "Consumer shutting down.")])
                       (store st1))).
  { rewrite Hmain. unfold shutdown, logged. cbn [log store].
    rewrite <- app_assoc. unfold same_store in S. rewrite S. reflexivity. }
  exists (log s1). split; [exact E |].
  unfold run. rewrite E. reflexivity.
Qed.

Lemma stream_error_ends_consumer_witness :
  exists l p,
    main (delivering [Message meme_record; Failure (PyException "KafkaError");
                      Message greeting_record]) (initial Sqlite.Absent) =
    (Ret tt,
     mkState (l ++ [(ERROR, "ERROR: Could not consume messages from Kafka:");
                    (ERROR, "Unexpected error:");
                    (INFO, "Consumer shutting down.")]) p).
Proof.
  eassert (Hpre : for_each [Message meme_record] process_and_insert
                    (initial empty_store) = (Ret tt, _))
    by (vm_compute; reflexivity).
  destruct (stream_error_ends_consumer [Message meme_record]
              [Message greeting_record] "KafkaError") as (_ & H).
  destruct (H _ Sqlite.Absent _ (delivering_bootstrapped _) Hpre)
    as (l & E & _).
  exists l. eexists. exact E.
Defined.

(** C6: the exit statuses of the fatal bootstrap failures.  Failure to
    read the configuration exits with 1, failure to delete the prior
    store with 2, failure to initialise the schema with 3, an unreachable
    broker with 11, failure to construct the consumer with 11 as well,
    an unavailable topic with 13; an interrupt while consuming exits with
    0.  The codes are nonzero, but the broker and the consumer failures
    share one. *)
Theorem exit_status_of_failures :
  forall (ext : collaborators) (p : Sqlite.path_state) (cfg : config)
         (name : string),
    (read_config ext = Raise (PyException name) -> fst (run ext p) = 1) /\
    (read_config ext = Ret cfg ->
     (exists db, p = Sqlite.Exists false db) -> fst (run ext p) = 2) /\
    (read_config ext = Ret cfg ->
     p = Sqlite.NoDirectory -> fst (run ext p) = 3) /\
    (read_config ext = Ret cfg -> startable p ->
     verify_services ext = Raise (PyException name) ->
     fst (run ext p) = 11) /\
    (read_config ext = Ret cfg -> startable p ->
     verify_services ext = Ret tt ->
     create_kafka_consumer ext (kafka_topic cfg) (kafka_consumer_group_id cfg)
       = Raise (PyException name) ->
     fst (run ext p) = 11) /\
    (read_config ext = Ret cfg -> startable p ->
     verify_services ext = Ret tt ->
     (exists records,
        create_kafka_consumer ext (kafka_topic cfg) (kafka_consumer_group_id cfg)
          = Ret (Some records)) ->
     is_topic_available ext (kafka_topic cfg) = Raise (PyException name) ->
     fst (run ext p) = 13) /\
    (forall pre post st1,
       bootstrapped ext p (pre ++ Failure KeyboardInterrupt :: post) ->
       for_each pre process_and_insert (initial empty_store) = (Ret tt, st1) ->
       fst (run ext p) = 0).
Proof.
  intros ext p cfg name. unfold run.
  assert (Boot : forall st, startable p ->
            exists l, fresh_start (logged (initial p) st)
                      = (Ret tt, mkState l empty_store)).
  { intros st Hp.
    destruct (fresh_start_startable (logged (initial p) st) Hp) as (l & ->).
    eexists. reflexivity. }
  repeat split.
  - intros Hc. rewrite main_run, Hc. reflexivity.
  - intros Hc (db & ->). rewrite main_run, Hc, fresh_start_run. reflexivity.
  - intros Hc ->. rewrite main_run, Hc, fresh_start_run. reflexivity.
  - intros Hc Hp Hv. rewrite main_run, Hc.
    destruct (Boot (main_banner ++
                      [(INFO, "SUCCESS: Read environment variables.")]) Hp)
      as (l & ->).
    rewrite consume_messages_run, Hv. reflexivity.
  - intros Hc Hp Hv Hk. rewrite main_run, Hc.
    destruct (Boot (main_banner ++
                      [(INFO, "SUCCESS: Read environment variables.")]) Hp)
      as (l & ->).
    rewrite consume_messages_run, Hv, Hk. reflexivity.
  - intros Hc Hp Hv (records & Hk) Ht. rewrite main_run, Hc.
    destruct (Boot (main_banner ++
                      [(INFO, "SUCCESS: Read environment variables.")]) Hp)
      as (l & ->).
    rewrite consume_messages_run, Hv, Hk, Ht. reflexivity.
  - intros pre post st1 B Hpre.
    destruct (main_bootstrapped _ _ _ B) as (l0 & ->).
    pose proof (for_each_same pre (initial empty_store) (mkState l0 empty_store)
                  eq_refl) as [R _].
    rewrite Hpre in R. cbn [fst] in R.
    destruct (for_each pre process_and_insert (mkState l0 empty_store))
      as [r1 s1] eqn:Hpre'.
    cbn [fst] in R. subst r1.
    rewrite consume_loop_run.
    rewrite (for_each_raises pre post (Failure KeyboardInterrupt)
               KeyboardInterrupt _ s1 s1 Hpre' eq_refl).
    reflexivity.
Qed.

Lemma exit_status_of_failures_witness :
  fst (run broker_unreachable Sqlite.Absent) = 11 /\
  fst (run consumer_construction_fails Sqlite.Absent) = 11.
Proof.
  assert (Hp : startable Sqlite.Absent) by (left; reflexivity).
  split.
  - destruct (exit_status_of_failures broker_unreachable Sqlite.Absent
                example_config "NoBrokersAvailable")
      as (_ & _ & _ & H & _).
    apply H; [reflexivity | exact Hp | reflexivity].
  - destruct (exit_status_of_failures consumer_construction_fails
                Sqlite.Absent example_config "KafkaConfigurationError")
      as (_ & _ & _ & _ & H & _).
    apply H; [reflexivity | exact Hp | reflexivity | reflexivity].
Defined.

(* ===================================================================== *)
(** * The store is recreated at process start                            *)
(* ===================================================================== *)

Section FreshStart.

Lemma insert_message_startable (pm : processed) (st : state) :
  startable (store st) -> startable (store (snd (insert_message pm st))).
Proof.
  unfold insert_message, bind, lift, get_store, set_store.
  destruct st as [l p]; cbn [log store].
  intros [-> | (db & ->)]; cbn [Sqlite.connect log store].
  - destruct (Sqlite.insert_into_messages None _); cbn;
      right; eexists; reflexivity.
  - destruct (Sqlite.insert_into_messages db _); cbn;
      right; eexists; reflexivity.
Qed.

Lemma process_and_insert_startable (v : json) (st : state) :
  startable (store st) -> startable (store (snd (process_and_insert v st))).
Proof.
  intros H. unfold process_and_insert, bind.
  destruct (process_message_run v st) as (l & -> & _).
  destruct (normalized v) as [pm |]; [| exact H].
  exact (insert_message_startable pm (mkState (log st ++ l) (store st)) H).
Qed.

Lemma for_each_startable (records : KafkaConsumer) (st : state) :
  startable (store st) ->
  startable (store (snd (for_each records process_and_insert st))).
Proof.
  apply (for_each_keeps process_and_insert startable).
  exact process_and_insert_startable.
Qed.

Lemma consume_loop_startable (records : KafkaConsumer) (st : state) :
  startable (store st) ->
  startable (store (snd (consume_loop records st))).
Proof.
  intros H. rewrite consume_loop_run.
  pose proof (for_each_startable records st H) as H1.
  destruct (for_each records process_and_insert st) as [[a | e] st1];
    cbn [snd] in *; [exact H1 |].
  destruct (is_Exception e); exact H1.
Qed.

Lemma shutdown_store (o : res unit * state) :
  store (snd (shutdown o)) = store (snd o).
Proof. destruct o as [[[] | [n | | c]] st]; reflexivity. Qed.

Lemma consume_messages_startable (ext : collaborators) (t u g : string)
    (i : Z) (st : state) :
  startable (store st) ->
  startable (store (snd (consume_messages_from_kafka ext t u g i st))).
Proof.
  intros H. rewrite consume_messages_run.
  destruct (verify_services ext) as [[] | e1];
    [| destruct (is_Exception e1); exact H].
  destruct (create_kafka_consumer ext t g) as [[records |] | e2];
    [| exact H | destruct (is_Exception e2); exact H].
  destruct (is_topic_available ext t) as [b | e3];
    [| destruct (is_Exception e3); exact H].
  apply consume_loop_startable. exact H.
Qed.

Lemma consume_messages_same (ext : collaborators) (t u g : string) (i : Z)
    (st1 st2 : state) :
  same_store st1 st2 ->
  same_outcome (consume_messages_from_kafka ext t u g i st1)
               (consume_messages_from_kafka ext t u g i st2).
Proof.
  intros E. rewrite !consume_messages_run.
  destruct (verify_services ext) as [[] | e1];
    [| destruct (is_Exception e1); split; try reflexivity; exact E].
  destruct (create_kafka_consumer ext t g) as [[records |] | e2];
    [| split; try reflexivity; exact E
     | destruct (is_Exception e2); split; try reflexivity; exact E].
  destruct (is_topic_available ext t) as [b | e3];
    [| destruct (is_Exception e3); split; try reflexivity; exact E].
  apply consume_loop_same. exact E.
Qed.

Lemma main_startable (ext : collaborators) (st : state) :
  startable (store st) -> startable (store (snd (main ext st))).
Proof.
  intros H. rewrite main_run.
  destruct (read_config ext) as [cfg | e];
    [| destruct (is_Exception e); exact H].
  destruct (fresh_start_startable
              (logged st (main_banner ++
                 [(INFO, "SUCCESS: Read environment variables.")])) H)
    as (l & ->).
  rewrite shutdown_store.
  apply consume_messages_startable. right. eexists. reflexivity.
Qed.

Lemma main_from_startable (ext : collaborators) (cfg : config)
    (p : Sqlite.path_state) :
  read_config ext = Ret cfg -> startable p ->
  same_outcome (main ext (initial p)) (main ext (initial Sqlite.Absent)).
Proof.
  intros Hc Hp. rewrite !main_run, Hc.
  destruct (fresh_start_startable
              (logged (initial p) (main_banner ++
                 [(INFO, "SUCCESS: Read environment variables.")])) Hp)
    as (l1 & ->).
  destruct (fresh_start_startable
              (logged (initial Sqlite.Absent) (main_banner ++
                 [(INFO, "SUCCESS: Read environment variables.")]))
              (or_introl eq_refl))
    as (l2 & ->).
  apply shutdown_same. apply consume_messages_same. reflexivity.
Qed.

End FreshStart.

(** C7: the bootstrap recreates the store empty.  For every prior state
    of the store file (absent, or present with any content), steps 2 and
    3 of [main] delete the file and initialise a fresh schema, leaving an
    empty [messages] table; and a second run of the consumer over a store
    left by a first run ends exactly as if it had started without any
    file: the rows of the first run do not accumulate. *)
Theorem fresh_start_recreates_store :
  forall (st : state),
    startable (store st) ->
    (exists st1 st2,
       fresh_start st = (Ret tt, st1) /\
       store st1 = Sqlite.Exists true (Some []) /\
       fresh_start st1 = (Ret tt, st2) /\
       store st2 = Sqlite.Exists true (Some [])) /\
    (forall (first second : collaborators) (cfg : config),
       read_config second = Ret cfg ->
       same_outcome
         (main second (initial (store (snd (main first st)))))
         (main second (initial Sqlite.Absent))).
Proof.
  intros st H. split.
  - destruct (fresh_start_startable st H) as (l1 & E1).
    destruct (fresh_start_startable (mkState (log st ++ l1) empty_store)
                (or_intror (ex_intro _ (Some []) eq_refl))) as (l2 & E2).
    eexists _, _. split; [exact E1 |]. split; [reflexivity |].
    split; [exact E2 | reflexivity].
  - intros first second cfg Hc.
    apply (main_from_startable second cfg _ Hc).
    apply main_startable. exact H.
Qed.

Lemma fresh_start_recreates_store_witness :
  store (snd (run (delivering [Message greeting_record]) Sqlite.Absent))
    = store_with_one_row /\
  (exists st1 st2,
     fresh_start (initial store_with_one_row) = (Ret tt, st1) /\
     store st1 = Sqlite.Exists true (Some []) /\
     fresh_start st1 = (Ret tt, st2) /\
     store st2 = Sqlite.Exists true (Some [])) /\
  same_outcome
    (main (delivering [Message meme_record])
       (initial (store (snd (main (delivering [Message greeting_record])
                               (initial store_with_one_row))))))
    (main (delivering [Message meme_record]) (initial Sqlite.Absent)).
Proof.
  assert (Hp : startable (store (initial store_with_one_row)))
    by (right; eexists; reflexivity).
  destruct (fresh_start_recreates_store (initial store_with_one_row) Hp)
    as (H1 & H2).
  split; [vm_compute; reflexivity |].
  split; [exact H1 |].
  apply (H2 _ _ example_config). reflexivity.
Defined.

(* ===================================================================== *)
(** * Further properties of the store gateway                            *)
(* ===================================================================== *)

(** X1: [init_db] is not destructive and is idempotent.  Wherever a
    database can be opened, it returns without logging, leaves a
    [messages] table behind, keeps every row of a table that was already
    there (an absent table is created empty), and a second call changes
    nothing.  Where nothing can be opened it raises an [Exception] and
    the store stays as it was. *)
Theorem init_db_keeps_rows :
  forall (st : state),
    (store st <> Sqlite.NoDirectory ->
     exists st1,
       init_db st = (Ret tt, st1) /\
       log st1 = log st /\
       rows_of (store st1) =
         Some (match rows_of (store st) with Some rows => rows | None => [] end) /\
       init_db st1 = (Ret tt, st1)) /\
    (store st = Sqlite.NoDirectory ->
     exists e, init_db st = (Raise e, st) /\ is_Exception e = true).
Proof.
  intros [l p]. cbn [store log]. split.
  - intros Hp. destruct p as [ | | r [rows |]]; [congruence | | |];
      eexists; (split; [vm_compute; reflexivity |]);
      repeat split; reflexivity.
  - intros ->. eexists. split; reflexivity.
Qed.

Lemma init_db_keeps_rows_witness :
  exists st1,
    init_db (initial store_with_one_row) = (Ret tt, st1) /\
    store st1 = store_with_one_row.
Proof.
  destruct (init_db_keeps_rows (initial store_with_one_row)) as (H & _).
  destruct (H ltac:(discriminate)) as (st1 & E & _ & _ & _).
  exists st1. split; [exact E |].
  assert (E' : snd (init_db (initial store_with_one_row)) = st1)
    by (rewrite E; reflexivity).
  rewrite <- E'. reflexivity.
Defined.

Section Gateway.

(** What [insert_message] does, by cases on the store and on the
    binding of the columns. *)
Lemma insert_message_cases (pm : processed) (st : state) :
  insert_message pm st =
  match Sqlite.connect (store st) with
  | Raise e => (Raise e, st)
  | Ret (r, db) =>
      match Sqlite.insert_into_messages db (columns pm) with
      | Ret db' => (Ret tt, mkState (log st) (Sqlite.Exists r db'))
      | Raise e => (Raise e, mkState (log st) (Sqlite.Exists r db))
      end
  end.
Proof.
  destruct st as [l p].
  unfold insert_message, bind, lift, get_store, set_store; cbn [log store].
  destruct (Sqlite.connect p) as [[r db] |]; [| reflexivity].
  cbn [log store]. fold (columns pm).
  destruct (Sqlite.insert_into_messages db (columns pm)); reflexivity.
Qed.

(** Appending the next row keeps the ids consecutive. *)
Lemma numbered_app (rows : list Sqlite.row) (vals : list Sqlite.value) :
  numbered rows -> numbered (rows ++ [next_row rows vals]).
Proof.
  intros N i r H.
  destruct (Nat.lt_ge_cases i (List.length rows)) as [Hlt | Hge].
  - rewrite nth_error_app1 in H by exact Hlt. exact (N i r H).
  - rewrite nth_error_app2 in H by exact Hge.
    destruct (i - List.length rows)%nat as [| k] eqn:K; cbn in H.
    + injection H as <-. unfold next_row. cbn [fst]. lia.
    + destruct k; discriminate.
Qed.

End Gateway.

(** X3: a failing [insert_message] writes no row.  The call fails
    whenever the file has no [messages] table (or cannot be opened) and
    whenever one of the eight values does not bind; and whenever it
    fails, it raises an [Exception], logs nothing and leaves the table as
    it was.  The only trace is the empty file that opening an absent
    database creates. *)
Theorem insert_message_failure_writes_nothing :
  forall (pm : processed) (st : state),
    ((rows_of (store st) = None \/
      succeeds (Sqlite.bind_all (columns pm)) = false) ->
     succeeds (fst (insert_message pm st)) = false) /\
    (forall e st',
       insert_message pm st = (Raise e, st') ->
       is_Exception e = true /\
       log st' = log st /\
       rows_of (store st') = rows_of (store st) /\
       (store st' = store st \/
        (store st = Sqlite.Absent /\ store st' = Sqlite.Exists true None))).
Proof.
  intros pm [l p]. rewrite insert_message_cases. cbn [store log].
  destruct p as [ | | r [rows |]]; cbn [Sqlite.connect rows_of
    Sqlite.insert_into_messages fst succeeds].
  - split; [reflexivity |].
    intros e st' H. injection H as <- <-. cbn. repeat split; auto.
  - split; [reflexivity |].
    intros e st' H. injection H as <- <-. cbn. repeat split; auto.
  - destruct (Sqlite.bind_all (columns pm)) as [vals | e0] eqn:B;
      cbn [rbind fst succeeds].
    + split; [intros [H | H]; discriminate | discriminate].
    + split; [reflexivity |].
      intros e st' H. injection H as <- <-. cbn [log store rows_of].
      split; [exact (bind_all_Exception _ _ B) | repeat split; auto].
  - split; [reflexivity |].
    intros e st' H. injection H as <- <-. cbn. repeat split; auto.
Qed.

Lemma insert_message_failure_writes_nothing_witness :
  exists e,
    insert_message greeting_processed (initial (Sqlite.Exists true None)) =
      (Raise e, initial (Sqlite.Exists true None)) /\
    is_Exception e = true.
Proof.
  eassert (E : insert_message greeting_processed
                 (initial (Sqlite.Exists true None)) = (Raise _, _))
    by (vm_compute; reflexivity).
  destruct (insert_message_failure_writes_nothing greeting_processed
              (initial (Sqlite.Exists true None))) as (_ & H).
  destruct (H _ _ E) as (He & _).
  eexists. split; [exact E | exact He].
Defined.

(* ===================================================================== *)
(** * Further properties of the ingestion loop                           *)
(* ===================================================================== *)

Section StoreInvariants.

(** A property of the store that [insert_message] keeps is kept by a turn
    of the loop, by the loop, and by [consume_messages_from_kafka]. *)
Variable P : Sqlite.path_state -> Prop.

Hypothesis insert_keeps :
  forall pm st, P (store st) -> P (store (snd (insert_message pm st))).

Lemma process_and_insert_keeps (v : json) (st : state) :
  P (store st) -> P (store (snd (process_and_insert v st))).
Proof.
  intros H. unfold process_and_insert, bind.
  destruct (process_message_run v st) as (l & -> & _).
  destruct (normalized v) as [pm |]; [| exact H].
  exact (insert_keeps pm (mkState (log st ++ l) (store st)) H).
Qed.

Lemma consume_loop_keeps (records : KafkaConsumer) (st : state) :
  P (store st) -> P (store (snd (consume_loop records st))).
Proof.
  intros H. rewrite consume_loop_run.
  pose proof (for_each_keeps process_and_insert P process_and_insert_keeps
                records st H) as H1.
  destruct (for_each records process_and_insert st) as [[a | e] st1];
    cbn [snd] in *; [exact H1 |].
  destruct (is_Exception e); exact H1.
Qed.

Lemma consume_messages_keeps (ext : collaborators) (t u g : string) (i : Z)
    (st : state) :
  P (store st) ->
  P (store (snd (consume_messages_from_kafka ext t u g i st))).
Proof.
  intros H. rewrite consume_messages_run.
  destruct (verify_services ext) as [[] | e1];
    [| destruct (is_Exception e1); exact H].
  destruct (create_kafka_consumer ext t g) as [[records |] | e2];
    [| exact H | destruct (is_Exception e2); exact H].
  destruct (is_topic_available ext t) as [b | e3];
    [| destruct (is_Exception e3); exact H].
  apply consume_loop_keeps. exact H.
Qed.

End StoreInvariants.

Section Rows.

Lemma insert_message_rows (pm : processed) (st : state) (rows : list Sqlite.row) :
  rows_of (store st) = Some rows ->
  rows_of (store (snd (insert_message pm st))) = Some rows \/
  exists vals,
    rows_of (store (snd (insert_message pm st))) =
      Some (rows ++ [next_row rows vals]).
Proof.
  destruct st as [l p]. rewrite insert_message_cases. cbn [store log].
  destruct p as [ | | r [rows0 |]]; cbn [rows_of]; try discriminate.
  intros H. injection H as ->. cbn [Sqlite.connect Sqlite.insert_into_messages].
  destruct (Sqlite.bind_all (columns pm)) as [vals | e]; cbn [rbind snd store rows_of].
  - right. exists vals. reflexivity.
  - left. reflexivity.
Qed.

(** A turn of the loop over an existing table. *)
Lemma process_and_insert_table (v : json) (st : state) (r : bool)
    (rows : list Sqlite.row) :
  store st = Sqlite.Exists r (Some rows) ->
  exists l,
    process_and_insert v st =
    match normalized v with
    | None => (Ret tt, mkState (log st ++ l) (store st))
    | Some pm =>
        match Sqlite.bind_all (columns pm) with
        | Ret vals =>
            (Ret tt,
             mkState (log st ++ l)
               (Sqlite.Exists r (Some (rows ++ [next_row rows vals]))))
        | Raise e => (Raise e, mkState (log st ++ l) (store st))
        end
    end.
Proof.
  intros Hs. unfold process_and_insert, bind.
  destruct (process_message_run v st) as (l & -> & _).
  exists l. destruct (normalized v) as [pm |]; [| reflexivity].
  rewrite insert_message_cases. cbn [store log]. rewrite Hs.
  cbn [Sqlite.connect Sqlite.insert_into_messages].
  destruct (Sqlite.bind_all (columns pm)); reflexivity.
Qed.

Lemma accepted_normalized (v : json) :
  accepted v = match normalized v with Some _ => true | None => false end.
Proof.
  unfold accepted.
  destruct (process_message_run v (initial Sqlite.Absent)) as (l & -> & _).
  cbn [fst]. destruct (normalized v); reflexivity.
Qed.

(** The loop over an existing table: every record that is accepted adds
    one row, up to the end of the stream or to the record whose insertion
    fails. *)
Lemma for_each_rows (values : list json) :
  forall (st : state) (r : bool) (rows : list Sqlite.row),
    store st = Sqlite.Exists r (Some rows) ->
    match for_each (map Message values) process_and_insert st with
    | (Ret _, st') =>
        exists more,
          store st' = Sqlite.Exists r (Some (rows ++ more)) /\
          List.length more = List.length (filter accepted values)
    | (Raise e, st') =>
        is_Exception e = true /\
        exists pre v post more,
          values = pre ++ v :: post /\
          accepted v = true /\
          store st' = Sqlite.Exists r (Some (rows ++ more)) /\
          List.length more = List.length (filter accepted pre)
    end.
Proof.
  induction values as [| v values IH]; intros st r rows Hs;
    cbn [map for_each].
  - exists []. rewrite app_nil_r. split; [exact Hs | reflexivity].
  - unfold bind.
    destruct (process_and_insert_table v st r rows Hs) as (l & ->).
    pose proof (accepted_normalized v) as A.
    destruct (normalized v) as [pm |].
    + destruct (Sqlite.bind_all (columns pm)) as [vals | e] eqn:B.
      * specialize (IH (mkState (log st ++ l)
                          (Sqlite.Exists r (Some (rows ++ [next_row rows vals]))))
                       r _ eq_refl).
        destruct (for_each (map Message values) process_and_insert _)
          as [[u | e] st'].
        -- destruct IH as (more & E & L).
           exists (next_row rows vals :: more). split.
           ++ rewrite E, <- app_assoc. reflexivity.
           ++ cbn [filter]. rewrite A. cbn [List.length]. rewrite L.
              reflexivity.
        -- destruct IH as (He & pre & w & post & more & -> & Aw & E & L).
           split; [exact He |].
           exists (v :: pre), w, post, (next_row rows vals :: more).
           split; [reflexivity |]. split; [exact Aw |]. split.
           ++ rewrite E, <- app_assoc. reflexivity.
           ++ cbn [filter]. rewrite A. cbn [List.length]. rewrite L.
              reflexivity.
      * split; [exact (bind_all_Exception _ _ B) |].
        exists [], v, values, []. rewrite app_nil_r.
        repeat split; [exact A | exact Hs].
    + specialize (IH (mkState (log st ++ l) (store st)) r rows Hs).
      destruct (for_each (map Message values) process_and_insert _)
        as [[u | e] st'].
      * destruct IH as (more & E & L).
        exists more. split; [exact E |].
        cbn [filter]. rewrite A. exact L.
      * destruct IH as (He & pre & w & post & more & -> & Aw & E & L).
        split; [exact He |].
        exists (v :: pre), w, post, more.
        split; [reflexivity |]. split; [exact Aw |]. split; [exact E |].
        cbn [filter]. rewrite A. exact L.
Qed.

End Rows.

(** X4: the loop stores one row for each record that normalises, no
    more and no fewer.  Over a stream of decoded values and an existing
    table, when the loop returns normally the table is the old rows
    followed by as many new rows as there are values of which
    [process_message] makes a record: a value it rejects adds nothing and
    a repeated record adds a row each time.  When the loop raises, it
    raises an [Exception] at a record that [process_message] accepted but
    that could not be inserted, and the new rows are as many as the
    accepted values before that record. *)
Theorem loop_stores_one_row_per_record :
  forall (values : list json) (st st' : state) (rows : list Sqlite.row),
    rows_of (store st) = Some rows ->
    (for_each (map Message values) process_and_insert st = (Ret tt, st') ->
     exists more,
       rows_of (store st') = Some (rows ++ more) /\
       List.length more = List.length (filter accepted values)) /\
    (forall e,
       for_each (map Message values) process_and_insert st = (Raise e, st') ->
       is_Exception e = true /\
       exists pre v post more,
         values = pre ++ v :: post /\
         accepted v = true /\
         rows_of (store st') = Some (rows ++ more) /\
         List.length more = List.length (filter accepted pre)).
Proof.
  intros values st st' rows Hr.
  assert (Hs : exists r, store st = Sqlite.Exists r (Some rows)).
  { destruct (store st) as [ | | r db]; try discriminate.
    cbn [rows_of] in Hr. subst db. exists r. reflexivity. }
  destruct Hs as (r & Hs).
  pose proof (for_each_rows values st r rows Hs) as H.
  split.
  - intros E. rewrite E in H. destruct H as (more & E1 & L).
    exists more. rewrite E1. split; [reflexivity | exact L].
  - intros e E. rewrite E in H.
    destruct H as (He & pre & v & post & more & Hv & Av & E1 & L).
    split; [exact He |].
    exists pre, v, post, more. rewrite E1. repeat split; assumption.
Qed.

Lemma loop_stores_one_row_per_record_witness :
  exists st' rows more,
    rows_of store_with_one_row = Some rows /\
    for_each (map Message [meme_record; abc_record; greeting_record;
                           greeting_record])
      process_and_insert (initial store_with_one_row) = (Ret tt, st') /\
    rows_of (store st') = Some (rows ++ more) /\
    List.length more = 3%nat.
Proof.
  eassert (E : for_each (map Message [meme_record; abc_record; greeting_record;
                                      greeting_record])
                 process_and_insert (initial store_with_one_row) = (Ret tt, _))
    by (vm_compute; reflexivity).
  match type of E with
  | _ = (_, ?s) =>
      edestruct (loop_stores_one_row_per_record
                   [meme_record; abc_record; greeting_record; greeting_record]
                   (initial store_with_one_row) s) as (H & _);
        [reflexivity |]
  end.
  destruct (H E) as (more & E1 & L).
  eexists _, _, more. split; [reflexivity |].
  split; [exact E |]. split; [exact E1 |].
  rewrite L. vm_compute. reflexivity.
Defined.

(** X5: consumption is append-only.  Whatever the collaborators and the
    stream do, [consume_messages_from_kafka] never removes or changes a
    stored row: the rows of the table before the call are a prefix of the
    rows after it, also when the call ends in an exception or an exit. *)
Theorem consumption_is_append_only :
  forall (ext : collaborators) (t u g : string) (i : Z) (st : state)
         (rows : list Sqlite.row),
    rows_of (store st) = Some rows ->
    exists more,
      rows_of (store (snd (consume_messages_from_kafka ext t u g i st))) =
        Some (rows ++ more).
Proof.
  intros ext t u g i st rows H.
  apply (consume_messages_keeps
           (fun p => exists more, rows_of p = Some (rows ++ more))).
  - intros pm st0 (more & H0).
    destruct (insert_message_rows pm st0 _ H0) as [E | (vals & E)].
    + exists more. exact E.
    + exists (more ++ [next_row (rows ++ more) vals]).
      rewrite E, app_assoc. reflexivity.
  - exists []. rewrite app_nil_r. exact H.
Qed.

Lemma consumption_is_append_only_witness :
  exists rows more,
    rows_of store_with_one_row = Some rows /\
    rows_of (store (snd (consume_messages_from_kafka
                           (delivering [Message meme_record;
                                        Message list_record;
                                        Message greeting_record])
                           "buzzline" "localhost:9092" "buzz_group" 5
                           (initial store_with_one_row)))) =
      Some (rows ++ more).
Proof.
  eexists.
  edestruct (consumption_is_append_only
               (delivering [Message meme_record; Message list_record;
                            Message greeting_record])
               "buzzline" "localhost:9092" "buzz_group" 5
               (initial store_with_one_row)) as (more & E);
    [reflexivity |].
  exists more. split; [reflexivity | exact E].
Defined.

(** X6: a run numbers the rows it stores from 1.  Every run of [main]
    that gets past the reading of the configuration over a store that can
    be recreated ends, however it ends, with a table whose ids are
    1, 2, 3, ... in the order of insertion: the table is created anew, so
    that the generated ids start again at 1, and every stored record
    takes the next one. *)
Theorem ids_are_consecutive :
  forall (ext : collaborators) (st : state) (cfg : config),
    read_config ext = Ret cfg ->
    startable (store st) ->
    exists rows,
      store (snd (main ext st)) = Sqlite.Exists true (Some rows) /\
      numbered rows.
Proof.
  intros ext st cfg Hc Hp. rewrite main_run, Hc.
  destruct (fresh_start_startable
              (logged st (main_banner ++
                 [(INFO, "SUCCESS: Read environment variables.")])) Hp)
    as (l & ->).
  rewrite shutdown_store.
  apply (consume_messages_keeps
           (fun p => exists rows,
              p = Sqlite.Exists true (Some rows) /\ numbered rows)).
  - intros pm [l0 p] (rows & Hrows & N). cbn [store] in Hrows. subst p.
    rewrite insert_message_cases. cbn [store log Sqlite.connect
      Sqlite.insert_into_messages].
    destruct (Sqlite.bind_all (columns pm)) as [vals | e];
      cbn [rbind snd store].
    + eexists. split; [reflexivity |]. apply (numbered_app rows vals N).
    + exists rows. split; [reflexivity | exact N].
  - exists []. split; [reflexivity |].
    intros i r H. destruct i; discriminate.
Qed.

Lemma ids_are_consecutive_witness :
  exists rows,
    store (snd (main (delivering [Message meme_record; Message greeting_record])
                  (initial store_with_one_row))) =
      Sqlite.Exists true (Some rows) /\
    numbered rows /\ List.length rows = 2%nat.
Proof.
  destruct (ids_are_consecutive
              (delivering [Message meme_record; Message greeting_record])
              (initial store_with_one_row) example_config eq_refl
              (or_intror (ex_intro _ _ eq_refl))) as (rows & E & N).
  exists rows. split; [exact E |]. split; [exact N |].
  vm_compute in E. injection E as <-. reflexivity.
Defined.

(* ===================================================================== *)
(** * Further properties of the process                                  *)
(* ===================================================================== *)

(** X7: the user's interrupt stops consumption cleanly.  When the pull
    is interrupted, the loop is left without a log entry of its own (its
    handler is for [Exception]s only) and without consuming what follows;
    [main] logs the interruption as a warning, then the shutdown, and
    returns, so that the exit status is 0 and the rows stored before the
    interrupt are kept. *)
Theorem interrupt_stops_cleanly :
  forall (pre post : KafkaConsumer),
    (forall st st1,
       for_each pre process_and_insert st = (Ret tt, st1) ->
       consume_loop (pre ++ Failure KeyboardInterrupt :: post) st =
         (Raise KeyboardInterrupt, st1)) /\
    (forall ext p st1,
       bootstrapped ext p (pre ++ Failure KeyboardInterrupt :: post) ->
       for_each pre process_and_insert (initial empty_store) = (Ret tt, st1) ->
       exists l,
         main ext (initial p) =
           (Ret tt,
            mkState (l ++ [(WARNING, "Consumer interrupted by user.");
                           (INFO, "Consumer shutting down.")])
                    (store st1)) /\
         fst (run ext p) = 0).
Proof.
  intros pre post.
  assert (L : forall st st1,
             for_each pre process_and_insert st = (Ret tt, st1) ->
             consume_loop (pre ++ Failure KeyboardInterrupt :: post) st =
               (Raise KeyboardInterrupt, st1)).
  { intros st st1 Hpre. rewrite consume_loop_run.
    rewrite (for_each_raises pre post (Failure KeyboardInterrupt)
               KeyboardInterrupt st st1 st1 Hpre eq_refl).
    reflexivity. }
  split; [exact L |].
  intros ext p st1 B Hpre.
  destruct (main_bootstrapped _ _ _ B) as (l0 & Hmain).
  pose proof (for_each_same pre (initial empty_store) (mkState l0 empty_store)
                eq_refl) as [R S].
  rewrite Hpre in R, S. cbn [fst snd] in R, S.
  destruct (for_each pre process_and_insert (mkState l0 empty_store))
    as [r1 s1] eqn:Hpre'.
  cbn [fst snd] in R, S. subst r1.
  rewrite (L _ _ Hpre') in Hmain.
  assert (E : main ext (initial p) =
              (Ret tt,
               mkState (log s1 ++ [(WARNING, "Consumer interrupted by user.");
                                   (INFO, "Consumer shutting down.")])
                       (store st1))).
  { rewrite Hmain. unfold shutdown, logged. cbn [log store].
    unfold same_store in S. rewrite S. reflexivity. }
  exists (log s1). split; [exact E |].
  unfold run. rewrite E. reflexivity.
Qed.

Lemma interrupt_stops_cleanly_witness :
  exists l,
    main (delivering [Message greeting_record; Failure KeyboardInterrupt;
                      Message meme_record]) (initial Sqlite.Absent) =
    (Ret tt,
     mkState (l ++ [(WARNING, "Consumer interrupted by user.");
                    (INFO, "Consumer shutting down.")])
             store_with_one_row).
Proof.
  eassert (Hpre : for_each [Message greeting_record] process_and_insert
                    (initial empty_store) = (Ret tt, _))
    by (vm_compute; reflexivity).
  destruct (interrupt_stops_cleanly [Message greeting_record]
              [Message meme_record]) as (_ & H).
  destruct (H _ Sqlite.Absent _ (delivering_bootstrapped _) Hpre)
    as (l & E & _).
  exists l. exact E.
Defined.

(** X8: a consumer that was not constructed ends the run with status 13.
    When [create_kafka_consumer] returns [None] instead of raising, the
    topic check is skipped (whatever it would have answered), an error is
    logged at step 4 and the process exits with 13 after the shutdown
    entry, the store having been recreated empty. *)
Theorem missing_consumer_exits_13 :
  forall (ext : collaborators) (st : state) (cfg : config),
    read_config ext = Ret cfg ->
    startable (store st) ->
    verify_services ext = Ret tt ->
    create_kafka_consumer ext (kafka_topic cfg) (kafka_consumer_group_id cfg)
      = Ret None ->
    exists l,
      main ext st =
        (Raise (SystemExit 13),
         mkState (l ++ [(INFO, "Step 2. Create a Kafka consumer.");
                        (INFO, "Step 3. Verify topic exists.");
                        (INFO, "Step 4. Process messages.");
                        (ERROR, "ERROR: Consumer is None. Exiting.");
                        (INFO, "Consumer shutting down.")])
                 empty_store).
Proof.
  intros ext st cfg Hc Hp Hv Hk. rewrite main_run, Hc.
  destruct (fresh_start_startable
              (logged st (main_banner ++
                 [(INFO, "SUCCESS: Read environment variables.")])) Hp)
    as (l & ->).
  rewrite consume_messages_run, Hv, Hk.
  exists ((log (logged st (main_banner ++
                  [(INFO, "SUCCESS: Read environment variables.")])) ++ l)
          ++ [(INFO, "STEP 4. Begin consuming and storing messages.")]
          ++ consume_banner).
  unfold shutdown, logged. cbn [log store].
  rewrite <- !app_assoc. cbn [app]. reflexivity.
Qed.

Lemma missing_consumer_exits_13_witness :
  fst (run no_consumer store_with_one_row) = 13 /\
  store (snd (run no_consumer store_with_one_row)) = empty_store.
Proof.
  destruct (missing_consumer_exits_13 no_consumer (initial store_with_one_row)
              example_config eq_refl (or_intror (ex_intro _ _ eq_refl))
              eq_refl eq_refl) as (l & E).
  unfold run. rewrite E. split; reflexivity.
Defined.

(** X9: the answer of the topic check is ignored.  Only an exception
    raised by [is_topic_available] stops the run; whether it returns
    [True] or [False], [main] logs the topic as ready and goes on to
    consume, with the very same outcome. *)
Theorem topic_check_answer_is_ignored :
  forall (rc : res config) (vs : res unit)
         (ckc : string -> string -> res (option KafkaConsumer))
         (f1 f2 : string -> res bool) (st : state),
    (forall t, succeeds (f1 t) = true /\ succeeds (f2 t) = true) ->
    main (mkCollaborators rc vs ckc f1) st =
    main (mkCollaborators rc vs ckc f2) st.
Proof.
  intros rc vs ckc f1 f2 st H.
  rewrite !main_run. cbn [read_config].
  destruct rc as [cfg | e]; [| reflexivity].
  destruct (fresh_start _) as [[[] | e] st1]; [| reflexivity].
  rewrite !consume_messages_run.
  cbn [verify_services create_kafka_consumer is_topic_available].
  destruct vs as [[] | e]; [| reflexivity].
  destruct (ckc _ _) as [[records |] | e]; try reflexivity.
  destruct (H (kafka_topic cfg)) as [H1 H2].
  destruct (f1 (kafka_topic cfg)); [| discriminate].
  destruct (f2 (kafka_topic cfg)); [| discriminate].
  reflexivity.
Qed.

Lemma topic_check_answer_is_ignored_witness :
  main (topic_check_answers false [Message meme_record]) (initial Sqlite.Absent) =
  main (topic_check_answers true [Message meme_record]) (initial Sqlite.Absent).
Proof.
  apply topic_check_answer_is_ignored.
  intros t. split; reflexivity.
Defined.

(** X10: a run that fails in steps 1 to 3 stops there.  When the
    configuration cannot be read, when the prior file cannot be deleted,
    or when no database can be opened at the path, [main] exits (with 1,
    2 or 3) having logged its banner, the steps it took and the error,
    and nothing else: no step of [consume_messages_from_kafka] is
    logged, there is no shutdown entry, and the store, with the rows of
    an earlier run, is as it was.  The Kafka collaborators are not
    consulted: the outcome is the same whatever the services check, the
    construction of the consumer and the topic check would do. *)
Theorem early_failure_leaves_store :
  forall (ext : collaborators) (st : state),
    (forall name,
       read_config ext = Raise (PyException name) ->
       main ext st =
         (Raise (SystemExit 1),
          mkState
            (log st ++ main_banner ++
             [(ERROR, "ERROR: Failed to read environment variables:")])
            (store st))) /\
    (forall cfg db,
       read_config ext = Ret cfg ->
       store st = Sqlite.Exists false db ->
       main ext st =
         (Raise (SystemExit 2),
          mkState
            (log st ++ main_banner ++
             [(INFO, "SUCCESS: Read environment variables.");
              (INFO, "STEP 2. Delete any prior database file for a fresh start.");
              (ERROR, "ERROR: Failed to delete DB file:")])
            (store st))) /\
    (forall cfg,
       read_config ext = Ret cfg ->
       store st = Sqlite.NoDirectory ->
       main ext st =
         (Raise (SystemExit 3),
          mkState
            (log st ++ main_banner ++
             [(INFO, "SUCCESS: Read environment variables.");
              (INFO, "STEP 2. Delete any prior database file for a fresh start.");
              (INFO, "STEP 3. Initialize a new database with an empty table.");
              (ERROR, "ERROR: Failed to create db table:")])
            (store st))) /\
    (forall (vs : res unit)
            (ckc : string -> string -> res (option KafkaConsumer))
            (ita : string -> res bool),
       (succeeds (read_config ext) = false \/
        (exists db, store st = Sqlite.Exists false db) \/
        store st = Sqlite.NoDirectory) ->
       main (mkCollaborators (read_config ext) vs ckc ita) st = main ext st).
Proof.
  intros ext st. split; [| split; [| split]].
  - intros name Hc. rewrite main_run, Hc. cbn [is_Exception].
    unfold logged. reflexivity.
  - intros cfg db Hc Hs. rewrite main_run, Hc, fresh_start_run.
    unfold logged. cbn [log store]. rewrite Hs.
    rewrite <- !app_assoc. reflexivity.
  - intros cfg Hc Hs. rewrite main_run, Hc, fresh_start_run.
    unfold logged. cbn [log store]. rewrite Hs.
    rewrite <- !app_assoc. reflexivity.
  - intros vs ckc ita H. rewrite !main_run. cbn [read_config].
    destruct (read_config ext) as [cfg | e]; [| reflexivity].
    rewrite fresh_start_run. cbn [logged store].
    destruct H as [H | [(db & H) | H]]; [discriminate | |];
      rewrite H; reflexivity.
Qed.

Lemma early_failure_leaves_store_witness :
  run config_unreadable store_with_one_row =
    (1, mkState (main_banner ++
                 [(ERROR, "ERROR: Failed to read environment variables:")])
                store_with_one_row).
Proof.
  destruct (early_failure_leaves_store config_unreadable
              (initial store_with_one_row)) as (H & _).
  unfold run. rewrite (H "KeyError" eq_refl). reflexivity.
Defined.

(** X11: a run that fails in the Kafka bootstrap has already emptied the
    store.  The store is recreated in steps 2 and 3, before the broker is
    contacted: when the services check, the construction of the consumer
    or the topic check then fails, or no consumer is returned, the
    process exits with the rows of the earlier run gone and an empty
    table in their place. *)
Theorem kafka_failure_comes_after_reset :
  forall (ext : collaborators) (st : state) (cfg : config),
    read_config ext = Ret cfg ->
    startable (store st) ->
    (succeeds (verify_services ext) = false \/
     succeeds (create_kafka_consumer ext (kafka_topic cfg)
                 (kafka_consumer_group_id cfg)) = false \/
     create_kafka_consumer ext (kafka_topic cfg) (kafka_consumer_group_id cfg)
       = Ret None \/
     succeeds (is_topic_available ext (kafka_topic cfg)) = false) ->
    store (snd (main ext st)) = empty_store.
Proof.
  intros ext st cfg Hc Hp Hf. rewrite main_run, Hc.
  destruct (fresh_start_startable
              (logged st (main_banner ++
                 [(INFO, "SUCCESS: Read environment variables.")])) Hp)
    as (l & ->).
  rewrite shutdown_store, consume_messages_run.
  destruct (verify_services ext) as [[] | e1];
    [| destruct (is_Exception e1); reflexivity].
  destruct (create_kafka_consumer ext _ _) as [[records |] | e2];
    [| reflexivity | destruct (is_Exception e2); reflexivity].
  destruct (is_topic_available ext _) as [b | e3];
    [| destruct (is_Exception e3); reflexivity].
  destruct Hf as [H | [H | [H | H]]]; discriminate.
Qed.

Lemma kafka_failure_comes_after_reset_witness :
  store (snd (main broker_unreachable (initial store_with_one_row))) =
    empty_store.
Proof.
  apply (kafka_failure_comes_after_reset broker_unreachable
           (initial store_with_one_row) example_config eq_refl
           (or_intror (ex_intro _ _ eq_refl))).
  left. reflexivity.
Defined.

(** X12: once the store has been recreated, the shutdown is always
    logged.  Whatever [consume_messages_from_kafka] does (return, raise,
    be interrupted, exit), the last entry [main] logs is the shutdown
    entry of its [finally] clause. *)
Theorem shutdown_is_always_logged :
  forall (ext : collaborators) (st : state) (cfg : config),
    read_config ext = Ret cfg ->
    startable (store st) ->
    exists l,
      log (snd (main ext st)) = l ++ [(INFO, "Consumer shutting down.")].
Proof.
  intros ext st cfg Hc Hp. rewrite main_run, Hc.
  destruct (fresh_start_startable
              (logged st (main_banner ++
                 [(INFO, "SUCCESS: Read environment variables.")])) Hp)
    as (l & ->).
  destruct (consume_messages_from_kafka _ _ _ _ _ _) as [[[] | [n | | c]] s];
    unfold shutdown, logged; cbn [snd log].
  - eexists. reflexivity.
  - exists (log s ++ [(ERROR, "Unexpected error:")]).
    rewrite <- app_assoc. reflexivity.
  - exists (log s ++ [(WARNING, "Consumer interrupted by user.")]).
    rewrite <- app_assoc. reflexivity.
  - eexists. reflexivity.
Qed.

Lemma shutdown_is_always_logged_witness :
  exists l,
    log (snd (main consumer_construction_fails (initial Sqlite.Absent))) =
      l ++ [(INFO, "Consumer shutting down.")].
Proof.
  exact (shutdown_is_always_logged consumer_construction_fails
           (initial Sqlite.Absent) example_config eq_refl
           (or_introl eq_refl)).
Defined.

Section ExitStatuses.

(** An exception that leaves the loop was raised by the pull or is an
    [Exception] raised by the handling of a record. *)
Lemma for_each_raise_origin (l : KafkaConsumer) (st st' : state) (e : exn) :
  for_each l process_and_insert st = (Raise e, st') ->
  is_Exception e = true \/ In (Failure e) l.
Proof.
  revert st. induction l as [| [v | e0] l IH]; intros st; cbn [for_each].
  - discriminate.
  - unfold bind.
    destruct (process_and_insert v st) as [[[] | e1] s1] eqn:T.
    + intros H. destruct (IH _ H) as [E | I]; [left; exact E | right; right; exact I].
    + intros H. injection H as <- <-. left.
      exact (process_and_insert_Exception _ _ _ _ T).
  - intros H. injection H as <- <-. right. left. reflexivity.
Qed.

Lemma consume_loop_ordinary (l : KafkaConsumer) (st : state) :
  Forall ordinary_event l ->
  exit_status (fst (shutdown (consume_loop l st))) = 0.
Proof.
  intros F. rewrite consume_loop_run.
  destruct (for_each l process_and_insert st) as [[[] | e] s] eqn:E;
    [reflexivity |].
  assert (O : is_Exception e = true \/ e = KeyboardInterrupt).
  { destruct (for_each_raise_origin _ _ _ _ E) as [X | I]; [left; exact X |].
    rewrite Forall_forall in F. exact (F _ I). }
  destruct e as [n | | c]; cbn [is_Exception]; try reflexivity.
  destruct O as [O | O]; discriminate.
Qed.

End ExitStatuses.

(** X13: the exit statuses of the consumer.  With collaborators that
    fail only by raising an [Exception], over a stream that fails only by
    an [Exception] or by the user's interrupt, the process ends with one
    of the statuses 0, 1, 2, 3, 11 and 13, whatever the prior state of the
    store and whatever the records are. *)
Theorem exit_status_is_one_of :
  forall (ext : collaborators) (p : Sqlite.path_state),
    ordinary ext ->
    In (fst (run ext p)) [0; 1; 2; 3; 11; 13].
Proof.
  intros ext p (Oc & Ov & Ok & Ot & Os).
  assert (R : fst (run ext p) = exit_status (fst (main ext (initial p)))).
  { unfold run. destruct (main ext (initial p)). reflexivity. }
  rewrite R. clear R. rewrite main_run.
  destruct (read_config ext) as [cfg | e] eqn:Hc.
  2:{ rewrite (Oc e eq_refl). cbn. tauto. }
  rewrite fresh_start_run. cbn [logged store initial].
  assert (K : forall st,
            In (exit_status
                  (fst (shutdown
                          (consume_messages_from_kafka ext (kafka_topic cfg)
                             (kafka_broker_address cfg)
                             (kafka_consumer_group_id cfg)
                             (message_interval_seconds cfg) st))))
               [0; 1; 2; 3; 11; 13]).
  { intros st. rewrite consume_messages_run.
    destruct (verify_services ext) as [[] | e1] eqn:Hv.
    2:{ rewrite (Ov e1 eq_refl). cbn. tauto. }
    destruct (create_kafka_consumer ext _ _) as [[records |] | e2] eqn:Hk.
    3:{ rewrite (Ok _ _ e2 Hk). cbn. tauto. }
    2:{ cbn. tauto. }
    destruct (is_topic_available ext _) as [b | e3] eqn:Ht.
    2:{ rewrite (Ot _ e3 Ht). cbn. tauto. }
    rewrite (consume_loop_ordinary records _ (Os _ _ _ Hk)). cbn. tauto. }
  destruct p as [ | | [] db]; cbn [fst exit_status];
    try apply K; cbn; tauto.
Qed.

Lemma exit_status_is_one_of_witness :
  In (fst (run (delivering [Message meme_record; Failure KeyboardInterrupt])
             store_with_one_row)) [0; 1; 2; 3; 11; 13].
Proof.
  apply exit_status_is_one_of.
  split; [intros e H; discriminate |].
  split; [intros e H; discriminate |].
  split; [intros t g e H; discriminate |].
  split; [intros t e H; discriminate |].
  intros t g records H. injection H as <-.
  constructor; [exact I |].
  constructor; [right; reflexivity | constructor].
Defined.

(* ===================================================================== *)
(** * Further properties of the classifier and of the normaliser         *)
(* ===================================================================== *)

Section Symmetry.

Lemma SFopp_involutive (x : float) : SFopp (SFopp x) = x.
Proof. destruct x as [[] | [] | | [] m e]; reflexivity. Qed.

(** Negating both floats reverses their comparison. *)
Lemma SFcompare_opp (x y : float) :
  SFcompare (SFopp x) (SFopp y) = SFcompare y x.
Proof.
  destruct x as [[] | [] | | [] mx ex]; destruct y as [[] | [] | | [] my ey];
    cbn [SFcompare SFopp negb]; try reflexivity; f_equal;
    rewrite (Z.compare_antisym ex ey);
    (destruct (ex ?= ey); cbn [CompOpp]; try reflexivity);
    change (Pos.compare_cont Eq my mx) with (Pos.compare my mx);
    change (Pos.compare_cont Eq mx my) with (Pos.compare mx my);
    rewrite (Pos.compare_antisym mx my);
    destruct (Pos.compare mx my); reflexivity.
Qed.

Lemma flt_opp (x y : float) : flt (fneg x) (fneg y) = flt y x.
Proof. unfold flt, fneg, SFltb. rewrite SFcompare_opp. reflexivity. Qed.

End Symmetry.

(** X14: the classifier is symmetric.  For every score, also an
    infinite one or a NaN, the category of the negated score is the
    opposite of the category of the score: "positive" and "negative" are
    exchanged and "neutral" stays. *)
Theorem categorize_sentiment_opposite :
  forall s : float,
    categorize_sentiment (fneg s) = opposite (categorize_sentiment s).
Proof.
  intros s.
  assert (A : fgt (fneg s) lit_0_1 = flt s (fneg lit_0_1)).
  { transitivity (flt (fneg (fneg lit_0_1)) (fneg s)).
    - unfold fneg at 2 3. rewrite SFopp_involutive. reflexivity.
    - apply flt_opp. }
  assert (B : flt (fneg s) (fneg lit_0_1) = fgt s lit_0_1).
  { exact (flt_opp s lit_0_1). }
  unfold categorize_sentiment. rewrite A, B.
  destruct (fgt s lit_0_1) eqn:G.
  - rewrite (above_not_below s G). reflexivity.
  - destruct (flt s (fneg lit_0_1)); reflexivity.
Qed.

(** X15: the classifier is monotone.  Between two finite scores, the
    greater one never gets a lower category, the categories being ordered
    negative, neutral, positive. *)
Theorem categorize_sentiment_monotone :
  forall s1 s2 : float,
    binary64 s1 = true -> is_finite s1 = true ->
    binary64 s2 = true -> is_finite s2 = true ->
    units s1 <= units s2 ->
    polarity (categorize_sentiment s1) <= polarity (categorize_sentiment s2).
Proof.
  intros s1 s2 V1 F1 V2 F2 Hle.
  assert (Fc : is_finite lit_0_1 = true) by (rewrite lit_0_1_value; reflexivity).
  assert (Fn : is_finite (fneg lit_0_1) = true)
    by (rewrite lit_0_1_value; reflexivity).
  assert (Hu : 0 < units lit_0_1).
  { rewrite lit_0_1_value. cbn [units].
    apply Z.mul_pos_pos; [lia | apply Z.pow_pos_nonneg; lia]. }
  assert (P : forall s, binary64 s = true -> is_finite s = true ->
            (units lit_0_1 < units s /\ polarity (categorize_sentiment s) = 1) \/
            (units s < - units lit_0_1 /\ polarity (categorize_sentiment s) = -1) \/
            (- units lit_0_1 <= units s <= units lit_0_1 /\
             polarity (categorize_sentiment s) = 0)).
  { intros s V F.
    pose proof (flt_units lit_0_1 s lit_0_1_binary64 V Fc F) as Ha.
    pose proof (flt_units s (fneg lit_0_1) V neg_lit_0_1_binary64 F Fn) as Hb.
    rewrite units_neg_lit_0_1 in Hb.
    change (flt lit_0_1 s) with (fgt s lit_0_1) in Ha.
    unfold categorize_sentiment.
    destruct (fgt s lit_0_1) eqn:G.
    - left. split; [apply Ha; reflexivity | reflexivity].
    - destruct (flt s (fneg lit_0_1)) eqn:L.
      + right. left. split; [apply Hb; reflexivity | reflexivity].
      + right. right. split; [| reflexivity].
        assert (~ units lit_0_1 < units s)
          by (intros X; apply Ha in X; discriminate).
        assert (~ units s < - units lit_0_1)
          by (intros X; apply Hb in X; discriminate).
        lia. }
  destruct (P s1 V1 F1) as [[A1 ->] | [[A1 ->] | [A1 ->]]];
    destruct (P s2 V2 F2) as [[A2 ->] | [[A2 ->] | [A2 ->]]]; lia.
Qed.

Lemma categorize_sentiment_monotone_witness :
  polarity (categorize_sentiment (fneg lit_0_5))
    <= polarity (categorize_sentiment lit_0_1) /\
  polarity (categorize_sentiment lit_0_1)
    <= polarity (categorize_sentiment lit_0_5).
Proof.
  split.
  - apply categorize_sentiment_monotone;
      try (vm_compute; reflexivity).
    vm_compute. discriminate.
  - apply categorize_sentiment_monotone;
      try (vm_compute; reflexivity).
    vm_compute. discriminate.
Defined.

Section Diagnostics.

(** The category differs from the default exactly for the keys of the
    dictionary, whatever the dictionary, provided no label is the
    default. *)
Lemma category_is_default (K : list (string * string)) (x : string)
    (kw : json) (cat : string) :
  (forall k v, assoc k K = Some v -> v <> x) ->
  str_dict_get K kw x = Ret cat ->
  negb (String.eqb cat x) =
  match kw with
  | JStr k => match assoc k K with Some _ => true | None => false end
  | _ => false
  end.
Proof.
  intros L C.
  destruct kw as [ | b | n | f | s | items | d ]; cbn [str_dict_get] in C;
    try discriminate; injection C as C'; subst cat;
    try (rewrite String.eqb_refl; reflexivity).
  destruct (assoc s K) as [v |] eqn:A.
  - pose proof (L s v A) as NU.
    destruct (String.eqb_spec v x); [contradiction | reflexivity].
  - rewrite String.eqb_refl. reflexivity.
Qed.

End Diagnostics.

(** X16: what [process_message] logs.  For a record that is processed it
    logs the two entries of the call, exactly one keyword diagnostic and
    the entry of the result: the diagnostic is the alert when the keyword
    is a key of the mapping, the warning "not found" when it is another
    true value, and the warning "no keyword" when it is null, absent or
    any other false value (the empty string, zero).  For a record that is
    rejected the last entry is the error, and no result entry is
    logged. *)
Theorem process_message_logs :
  forall (msg : json) (st : state),
    (forall pm st',
       process_message msg st = (Ret (Some pm), st') ->
       st' = logged st
               [ (INFO, "Called process_message() with:");
                 (INFO, "   message=");
                 keyword_diagnostic (keyword_mentioned pm);
                 (INFO, "Processed message:") ]) /\
    (forall st',
       process_message msg st = (Ret None, st') ->
       exists l,
         st' = logged st (l ++ [(ERROR, "Error processing message:")]) /\
         ~ In (INFO, "Processed message:") l).
Proof.
  intros msg st.
  assert (D : forall kw, keyword_diagnostic kw <> (INFO, "Processed message:")).
  { intros kw. unfold keyword_diagnostic.
    destruct (truthy kw); [destruct (is_key kw) |]; discriminate. }
  unfold process_message.
  unfold try_except, bind, lift, logger_info, logger_warning, logger_error,
    emit, ret, Exception_; cbn [log store fst snd].
  destruct msg as [ | b | n | f | s | items | d ];
    try (cbn [get select_handler is_Exception log store];
         split; [discriminate |];
         intros st' H; injection H as <-;
         exists [(INFO, "Called process_message() with:"); (INFO, "   message=")];
         split; [unfold logged; rewrite <- !app_assoc; reflexivity |];
         cbn; intros [X | [X | X]]; [discriminate | discriminate | exact X]).
  rewrite !get_field.
  destruct (str_dict_get KEYWORD_CATEGORIES _ "unknown") as [cat | e1] eqn:E1.
  2:{ cbn [select_handler].
      rewrite (str_dict_get_Exception _ _ _ _ E1); cbn [log store].
      split; [discriminate |].
      intros st' H; injection H as <-.
      exists [(INFO, "Called process_message() with:"); (INFO, "   message=")].
      split; [unfold logged; rewrite <- !app_assoc; reflexivity |].
      cbn; intros [X | [X | X]]; [discriminate | discriminate | exact X]. }
  destruct (float_of _) as [sc | e2] eqn:E2.
  2:{ cbn [select_handler].
      rewrite (float_of_Exception _ _ E2); cbn [log store].
      split; [discriminate |].
      intros st' H; injection H as <-.
      exists [(INFO, "Called process_message() with:"); (INFO, "   message=")].
      split; [unfold logged; rewrite <- !app_assoc; reflexivity |].
      cbn; intros [X | [X | X]]; [discriminate | discriminate | exact X]. }
  pose proof (category_is_default KEYWORD_CATEGORIES "unknown" _ _
                KEYWORD_CATEGORIES_labels E1) as Hk.
  set (kw := field (JObj d) "keyword_mentioned" JNull) in *.
  change (match kw with
          | JStr k =>
              match assoc k KEYWORD_CATEGORIES with
              | Some _ => true
              | None => false
              end
          | _ => false
          end) with (is_key kw) in Hk.
  assert (G : (if truthy kw
               then if negb (String.eqb cat "unknown")
                    then (INFO, "Alert: Detected category for keyword")
                    else (WARNING, "Keyword not found in categories")
               else (WARNING, "No keyword mentioned in message"))
              = keyword_diagnostic kw).
  { unfold keyword_diagnostic. rewrite Hk. reflexivity. }
  destruct (int_of _) as [len | e3] eqn:E3.
  - split.
    + intros pm st' H.
      destruct (truthy kw); [destruct (negb (String.eqb cat "unknown")) |];
        cbn [log store] in H; injection H as <- <-;
        cbn [keyword_mentioned]; rewrite <- G;
        unfold logged; rewrite <- !app_assoc; reflexivity.
    + intros st' H.
      destruct (truthy kw); [destruct (negb (String.eqb cat "unknown")) |];
        cbn [log store] in H; discriminate.
  - split.
    + intros pm st' H.
      destruct (truthy kw); [destruct (negb (String.eqb cat "unknown")) |];
        cbn [log store select_handler] in H;
        rewrite (int_of_Exception _ _ E3) in H; discriminate.
    + intros st' H.
      exists [(INFO, "Called process_message() with:"); (INFO, "   message=");
              keyword_diagnostic kw].
      split.
      * rewrite <- G.
        destruct (truthy kw); [destruct (negb (String.eqb cat "unknown")) |];
          cbn [log store select_handler] in H;
          rewrite (int_of_Exception _ _ E3) in H; cbn [log store] in H;
          injection H as <-;
          unfold logged; rewrite <- !app_assoc; reflexivity.
      * cbn. intros [X | [X | [X | X]]];
          [discriminate | discriminate | exact (D kw X) | exact X].
Qed.

Lemma process_message_logs_witness :
  exists pm st',
    process_message (JObj [("keyword_mentioned", JStr "")])
      (initial Sqlite.Absent) = (Ret (Some pm), st') /\
    st' = logged (initial Sqlite.Absent)
            [ (INFO, "Called process_message() with:");
              (INFO, "   message=");
              keyword_diagnostic (keyword_mentioned pm);
              (INFO, "Processed message:") ] /\
    keyword_diagnostic (keyword_mentioned pm) =
      (WARNING, "No keyword mentioned in message").
Proof.
  eassert (E : process_message (JObj [("keyword_mentioned", JStr "")])
                 (initial Sqlite.Absent) = (Ret (Some _), _))
    by (vm_compute; reflexivity).
  destruct (process_message_logs (JObj [("keyword_mentioned", JStr "")])
              (initial Sqlite.Absent)) as (H & _).
  eexists _, _. split; [exact E |].
  split; [exact (H _ _ E) | reflexivity].
Defined.
